(** * Seven-point fundamental matrix solver

    A shallow embedding of [FundamentalMatrixSevenPointSolver::estimateModel]
    (include/solver_fundamental_matrix_seven_point.h) and the properties of
    its specification.

    The solver is written once, over an interface [Scalar] of the arithmetic
    it uses on [double].  Two instances are given: IEEE binary64 (Rocq's
    primitive floats), which is what the C++ code runs on, and the real
    numbers, which is the exact arithmetic the algebraic claims speak about.
    The two Eigen routines the solver calls ([JacobiSVD] and
    [PolynomialSolver::realRoots]) are parameters of the development. *)

From Stdlib Require Import ZArith List Reals Lra Lia Floats.
From stdpp Require Import base option list.
Import ListNotations.

(** ** Machine integers *)

(** [int] is 32 bits wide.  A conversion from [size_t] keeps the low 32
    bits; an [int] product or sum whose mathematical result is out of range
    is undefined in C++ and is given the two's complement result here.  The
    theorems that relate an offset to a table row assume it is in range. *)
Definition INT_MAX : Z := 2147483647.
Definition INT_MIN : Z := -2147483648.

Definition wrap_int (z : Z) : Z := ((z + 2147483648) mod 4294967296 - 2147483648)%Z.

Definition in_int_range (z : Z) : Prop := (INT_MIN <= z <= INT_MAX)%Z.

(** ** The arithmetic of [double] *)

Class Scalar (T : Type) : Type := {
  s_zero : T;
  s_one : T;
  s_add : T -> T -> T;
  s_sub : T -> T -> T;
  s_mul : T -> T -> T;
  s_div : T -> T -> T;
  (** [fabs] *)
  s_fabs : T -> T;
  (** [x > y] *)
  s_gt : T -> T -> bool;
  (** [std::numeric_limits<double>::epsilon()] *)
  s_epsilon : T
}.

Declare Scope scalar_scope.
Delimit Scope scalar_scope with S.
Notation "x + y" := (s_add x y) : scalar_scope.
Notation "x - y" := (s_sub x y) : scalar_scope.
Notation "x * y" := (s_mul x y) : scalar_scope.
Notation "x / y" := (s_div x y) : scalar_scope.

(** IEEE 754 binary64, the arithmetic of the C++ code. *)
#[export] Instance float_scalar : Scalar float := {|
  s_zero := 0%float;
  s_one := 1%float;
  s_add := PrimFloat.add;
  s_sub := PrimFloat.sub;
  s_mul := PrimFloat.mul;
  s_div := PrimFloat.div;
  s_fabs := PrimFloat.abs;
  s_gt := fun x y => PrimFloat.ltb y x;
  s_epsilon := 0x1p-52%float
|}.

(** Exact real arithmetic. *)
Definition Rgtb (x y : R) : bool := if Rgt_dec x y then true else false.

#[export] Instance real_scalar : Scalar R := {|
  s_zero := 0%R;
  s_one := 1%R;
  s_add := Rplus;
  s_sub := Rminus;
  s_mul := Rmult;
  s_div := Rdiv;
  s_fabs := Rabs;
  s_gt := Rgtb;
  s_epsilon := (/ 4503599627370496)%R
|}.

(** ** Dense matrices and vectors *)

(** An Eigen matrix is the list of its rows, a vector the list of its
    entries. *)
Definition Matrix (T : Type) : Type := list (list T).

Section Eigen.
Context {T : Type} {scalar : Scalar T}.
Local Open Scope scalar_scope.

(** [v[i]] *)
Definition vget (v : list T) (i : nat) : T := nth i v s_zero.
Local Notation "v .[ i ]" := (vget v i) (at level 1, left associativity, format "v .[ i ]").

(** [A(i, j)] read *)
Definition coeff (A : Matrix T) (i j : nat) : T := vget (nth i A []) j.

(** [A(i, j) = v]; an index outside the matrix is outside the storage
    (Eigen asserts, a release build has undefined behaviour). *)
Definition set_coeff (A : Matrix T) (i j : nat) (v : T) : option (Matrix T) :=
  match A !! i with
  | Some row =>
      if (j <? length row)%nat then Some (<[i := <[j := v]> row]> A) else None
  | None => None
  end.

Definition ncols (A : Matrix T) : nat :=
  match A with
  | [] => 0
  | row :: _ => length row
  end.

Definition column (A : Matrix T) (j : nat) : list T :=
  map (fun row => vget row j) A.

Definition dot (u v : list T) : T :=
  fold_right s_add s_zero (zip_with s_mul u v).

(** [A.transpose()] *)
Definition transpose (A : Matrix T) : Matrix T :=
  map (column A) (seq 0 (ncols A)).

(** [A * B] *)
Definition mat_mul (A B : Matrix T) : Matrix T :=
  map (fun row => map (fun j => dot row (column B j)) (seq 0 (ncols B))) A.

(** [A.transpose() * A] *)
Definition normal_equations (A : Matrix T) : Matrix T :=
  mat_mul (transpose A) A.

(** [V.block<9, 1>(0, j)] *)
Definition block_9_1 (V : Matrix T) (j : nat) : list T :=
  map (fun i => coeff V i j) (seq 0 9).

(** The notions the specification is phrased with. *)

(** [A * v] *)
Definition mat_vec (A : Matrix T) (v : list T) : list T :=
  map (fun row => dot row v) A.

(** A flat vector of nine entries read as a 3x3 matrix, row by row. *)
Definition reshape3x3 (v : list T) : Matrix T :=
  [ [v.[0]; v.[1]; v.[2]]; [v.[3]; v.[4]; v.[5]]; [v.[6]; v.[7]; v.[8]] ].

(** The flat vector of a matrix, row by row. *)
Definition row_major (A : Matrix T) : list T := concat A.

(** Determinant of a 3x3 matrix, expanded along its first row. *)
Definition det3 (A : Matrix T) : T :=
  coeff A 0 0 * (coeff A 1 1 * coeff A 2 2 - coeff A 1 2 * coeff A 2 1)
  - coeff A 0 1 * (coeff A 1 0 * coeff A 2 2 - coeff A 1 2 * coeff A 2 0)
  + coeff A 0 2 * (coeff A 1 0 * coeff A 2 1 - coeff A 1 1 * coeff A 2 0).

(** [lambda * f1 + f2], entry by entry. *)
Definition pencil (lambda : T) (f1 f2 : list T) : list T :=
  map (fun i => lambda * f1.[i] + f2.[i]) (seq 0 9).

(** [c[0] + c[1] x + c[2] x^2 + c[3] x^3] *)
Definition eval_cubic (c : list T) (x : T) : T :=
  c.[0] + c.[1] * x + c.[2] * (x * x) + c.[3] * (x * x * x).

(** [(x1, y1, 1) F (x0, y0, 1)^T] for a correspondence [(x0, y0, x1, y1)]. *)
Definition epipolar_form (F : Matrix T) (p : T * T * T * T) : T :=
  let '(x0, y0, x1, y1) := p in
  dot [x1; y1; s_one] (mat_vec F [x0; y0; s_one]).
End Eigen.

Notation "v .[ i ]" := (vget v i) (at level 1, left associativity, format "v .[ i ]").

(** Modelled from the spec: the classes [Model] and [FundamentalMatrix]
    (fundamental_estimator.h) are not part of the sources; the specification
    describes a candidate model as a 3x3 real matrix, filled in row-major
    order by the comma initialiser. *)
Record Model (T : Type) : Type := { descriptor : Matrix T }.
Arguments descriptor {T} _.
Arguments Build_Model {T} _.

(** ** The state the solver runs in *)

(** [memory] is the storage behind [data_.data], addressed in [double]s
    relative to that pointer; [models_] is the caller's output vector. *)
Record state (T : Type) : Type := {
  memory : Z -> T;
  models_ : list (Model T)
}.
Arguments memory {T} _.
Arguments models_ {T} _.
Arguments Build_state {T} _ _.

(** A computation reads and updates the state, or is undefined. *)
Definition M (T A : Type) : Type := state T -> option (A * state T).

Section Monad.
Context {T : Type}.

Definition ret {A} (a : A) : M T A := fun st => Some (a, st).

Definition bind {A B} (m : M T A) (k : A -> M T B) : M T B :=
  fun st =>
    match m st with
    | Some (a, st') => k a st'
    | None => None
    end.

(** A step of the local computation that may leave the allocated storage. *)
Definition lift {A} (o : option A) : M T A :=
  fun st =>
    match o with
    | Some a => Some (a, st)
    | None => None
    end.

(** [data_ptr[offset]].  The routine never consults the extent of the
    table, so the read is modelled on the whole memory: at an offset outside
    the table, where the C++ read is undefined, it returns what the memory
    holds there.  The theorems that speak of table rows assume valid
    indices. *)
Definition load (offset : Z) : M T T := fun st => Some (memory st offset, st).

(** [models_.push_back(model)] *)
Definition push_back (model : Model T) : M T unit :=
  fun st => Some (tt, {| memory := memory st; models_ := models_ st ++ [model] |}).

(** [for (i = 0; i < n; i++) body], threading the locals [a]. *)
Fixpoint for_range_from {A} (i n : nat) (body : nat -> A -> M T A) (a : A) : M T A :=
  match n with
  | O => ret a
  | S n' => bind (body i a) (for_range_from (S i) n' body)
  end.

Definition for_range {A} (n : nat) (body : nat -> A -> M T A) (a : A) : M T A :=
  for_range_from 0 n body a.

(** [for (const double &x : l) body], threading the locals [a]. *)
Fixpoint for_each {A} (l : list T) (body : T -> A -> M T A) (a : A) : M T A :=
  match l with
  | [] => ret a
  | x :: l' => bind (body x a) (for_each l' body)
  end.
End Monad.

Notation "'do' x <- c ; k" := (bind c (fun x => k))
  (at level 10, x name, c at level 100, k at level 200).

(** ** The solver *)

(** [sampleSize()] *)
Definition sampleSize : nat := 7.

(** The two Eigen routines the solver calls. *)
Class EigenLib (T : Type) : Type := {
  (** [Eigen::JacobiSVD<MatrixXd>(m, ComputeFullV).matrixV()] *)
  svd_matrixV : Matrix T -> Matrix T;
  (** [Eigen::PolynomialSolver<double, 3>(polynomial).realRoots(real_roots)] *)
  realRoots : list T -> list T
}.

(** The content of storage that is allocated and not initialised: the
    entries of [coefficients] after its construction, and the array [f]. *)
Class Uninitialized (T : Type) : Type := {
  heap_garbage : nat -> nat -> T;
  stack_garbage : nat -> T
}.

Section Solver.
Context {T : Type} {scalar : Scalar T} {eigen : EigenLib T} {uninit : Uninitialized T}.
Local Open Scope scalar_scope.

(** [Eigen::MatrixXd coefficients(rows, cols)] *)
Definition MatrixXd (rows cols : nat) : Matrix T :=
  map (fun i => map (heap_garbage i) (seq 0 cols)) (seq 0 rows).

(** Body of the loop that forms the linear system, lines 49-65. *)
Definition fill_row (cols : Z) (sample_ : nat -> Z) (i : nat)
    (coefficients : Matrix T) : M T (Matrix T) :=
  let sample_idx := wrap_int (sample_ i) in
  let offset := wrap_int (cols * sample_idx) in
  do x0 <- load offset;
  do y0 <- load (wrap_int (offset + 1));
  do x1 <- load (wrap_int (offset + 2));
  do y1 <- load (wrap_int (offset + 3));
  do coefficients <- lift (set_coeff coefficients i 0 (x1 * x0));
  do coefficients <- lift (set_coeff coefficients i 1 (x1 * y0));
  do coefficients <- lift (set_coeff coefficients i 2 x1);
  do coefficients <- lift (set_coeff coefficients i 3 (y1 * x0));
  do coefficients <- lift (set_coeff coefficients i 4 (y1 * y0));
  do coefficients <- lift (set_coeff coefficients i 5 y1);
  do coefficients <- lift (set_coeff coefficients i 6 x0);
  do coefficients <- lift (set_coeff coefficients i 7 y0);
  lift (set_coeff coefficients i 8 s_one).

(** [for (i = 0; i < 9; i++) f1[i] -= f2[i];] *)
Definition subtract_basis (f1 f2 : list T) : list T :=
  fold_left (fun f1 i => <[i := f1.[i] - f2.[i]]> f1) (seq 0 9) f1.

(** The polynomial coefficients [c[0..3]], lines 93-119. *)
Definition cubic_coefficients (f1 f2 : list T) : list T :=
  let t0 := f2.[4] * f2.[8] - f2.[5] * f2.[7] in
  let t1 := f2.[3] * f2.[8] - f2.[5] * f2.[6] in
  let t2 := f2.[3] * f2.[7] - f2.[4] * f2.[6] in
  let c0 := f2.[0] * t0 - f2.[1] * t1 + f2.[2] * t2 in
  let c1 := f1.[0] * t0 - f1.[1] * t1 + f1.[2] * t2 -
            f1.[3] * (f2.[1] * f2.[8] - f2.[2] * f2.[7]) +
            f1.[4] * (f2.[0] * f2.[8] - f2.[2] * f2.[6]) -
            f1.[5] * (f2.[0] * f2.[7] - f2.[1] * f2.[6]) +
            f1.[6] * (f2.[1] * f2.[5] - f2.[2] * f2.[4]) -
            f1.[7] * (f2.[0] * f2.[5] - f2.[2] * f2.[3]) +
            f1.[8] * (f2.[0] * f2.[4] - f2.[1] * f2.[3]) in
  let t0 := f1.[4] * f1.[8] - f1.[5] * f1.[7] in
  let t1 := f1.[3] * f1.[8] - f1.[5] * f1.[6] in
  let t2 := f1.[3] * f1.[7] - f1.[4] * f1.[6] in
  let c2 := f2.[0] * t0 - f2.[1] * t1 + f2.[2] * t2 -
            f2.[3] * (f1.[1] * f1.[8] - f1.[2] * f1.[7]) +
            f2.[4] * (f1.[0] * f1.[8] - f1.[2] * f1.[6]) -
            f2.[5] * (f1.[0] * f1.[7] - f1.[1] * f1.[6]) +
            f2.[6] * (f1.[1] * f1.[5] - f1.[2] * f1.[4]) -
            f2.[7] * (f1.[0] * f1.[5] - f1.[2] * f1.[3]) +
            f2.[8] * (f1.[0] * f1.[4] - f1.[1] * f1.[3]) in
  let c3 := f1.[0] * t0 - f1.[1] * t1 + f1.[2] * t2 in
  [c0; c1; c2; c3].

(** Body of the loop over the roots, lines 137-155; [f] is the array
    declared before the loop. *)
Definition process_root (f1 f2 : list T) (root : T) (f : list T) : M T (list T) :=
  let lambda := root in
  let mu := s_one in
  let s := f1.[8] * root + f2.[8] in
  if s_gt (s_fabs s) s_epsilon then
    let mu := s_one / s in
    let lambda := lambda * mu in
    let f := fold_left (fun f i => <[i := f1.[i] * lambda + f2.[i] * mu]> f) (seq 0 8) f in
    let model := {| descriptor := [ [f.[0]; f.[1]; f.[2]];
                                    [f.[3]; f.[4]; f.[5]];
                                    [f.[6]; f.[7]; s_one] ] |} in
    do u <- push_back model;
    ret f
  else ret f.

(** Lines 38-66: the coefficient matrix and the loop over the sample. *)
Definition form_linear_system (cols : Z) (sample_ : nat -> Z) (sample_number_ : nat)
    : M T (Matrix T) :=
  let coefficients := MatrixXd sample_number_ 9 in
  for_range 7 (fill_row cols sample_) coefficients.

(** Lines 72-91: the decomposition of [coefficients.transpose() * coefficients]
    and the two vectors [f1] (after the subtraction loop) and [f2]. *)
Definition null_space_basis (coefficients : Matrix T) : list T * list T :=
  let V := svd_matrixV (normal_equations coefficients) in
  let f1 := block_9_1 V 7 in
  let f2 := block_9_1 V 8 in
  let f1 := subtract_basis f1 f2 in
  (f1, f2).

(** Lines 122-128: the polynomial handed to the root finder. *)
Definition solve_cubic (c : list T) : list T :=
  let polynomial := map (fun i => c.[i]) (seq 0 4) in
  realRoots polynomial.

(** [estimateModel(data_, sample_, sample_number_, models_)]: [data_] is
    given by its [cols] and by the memory behind its data pointer, which
    with [models_] is the state; the result is the returned flag. *)
Definition estimateModel (cols : Z) (sample_ : nat -> Z) (sample_number_ : nat)
    : M T bool :=
  do coefficients <- form_linear_system cols sample_ sample_number_;
  let '(f1, f2) := null_space_basis coefficients in
  let c := cubic_coefficients f1 f2 in
  let real_roots := solve_cubic c in
  let n := wrap_int (Z.of_nat (length real_roots)) in
  if ((n <? 1) || (3 <? n))%Z then ret false
  else
    let f := map stack_garbage (seq 0 8) in
    do u <- for_each real_roots (process_root f1 f2) f;
    ret true.

(** *** What a call computes, phase by phase *)

(** The four values the loop body reads for the [i]-th element of the
    sample. *)
Definition sampled_correspondence (mem : Z -> T) (cols : Z) (sample_ : nat -> Z)
    (i : nat) : T * T * T * T :=
  let offset := wrap_int (cols * wrap_int (sample_ i)) in
  (mem offset, mem (wrap_int (offset + 1)),
   mem (wrap_int (offset + 2)), mem (wrap_int (offset + 3))).

Definition coefficient_row (p : T * T * T * T) : list T :=
  let '(x0, y0, x1, y1) := p in
  [x1 * x0; x1 * y0; x1; y1 * x0; y1 * y0; y1; x0; y0; s_one].

Definition coefficients_of (mem : Z -> T) (cols : Z) (sample_ : nat -> Z)
    (sample_number_ : nat) : Matrix T :=
  map (fun i => coefficient_row (sampled_correspondence mem cols sample_ i)) (seq 0 7)
  ++ map (fun i => map (heap_garbage i) (seq 0 9)) (seq 7 (sample_number_ - 7)).

Definition basis_of (mem : Z -> T) (cols : Z) (sample_ : nat -> Z)
    (sample_number_ : nat) : list T * list T :=
  null_space_basis (coefficients_of mem cols sample_ sample_number_).

Definition real_roots_of (mem : Z -> T) (cols : Z) (sample_ : nat -> Z)
    (sample_number_ : nat) : list T :=
  let '(f1, f2) := basis_of mem cols sample_ sample_number_ in
  solve_cubic (cubic_coefficients f1 f2).

(** The normalisation scalar of a root and the guard on it. *)
Definition normalization_scalar (f1 f2 : list T) (root : T) : T :=
  f1.[8] * root + f2.[8].

Definition normalizable (f1 f2 : list T) (root : T) : bool :=
  s_gt (s_fabs (normalization_scalar f1 f2 root)) s_epsilon.

(** The model a root contributes, if any. *)
Definition candidate (f1 f2 : list T) (root : T) : option (Model T) :=
  let s := normalization_scalar f1 f2 root in
  if normalizable f1 f2 root then
    let mu := s_one / s in
    let lambda := root * mu in
    let e := fun i => f1.[i] * lambda + f2.[i] * mu in
    Some {| descriptor := [ [e 0%nat; e 1%nat; e 2%nat];
                            [e 3%nat; e 4%nat; e 5%nat];
                            [e 6%nat; e 7%nat; s_one] ] |}
  else None.

Definition candidates (f1 f2 : list T) (real_roots : list T) : list (Model T) :=
  omap (candidate f1 f2) real_roots.

(** The test on [n], line 131. *)
Definition root_count_ok (real_roots : list T) : bool :=
  let n := wrap_int (Z.of_nat (length real_roots)) in
  negb ((n <? 1) || (3 <? n))%Z.

(** The flag a call returns and the models it appends. *)
Definition success_of (mem : Z -> T) (cols : Z) (sample_ : nat -> Z)
    (sample_number_ : nat) : bool :=
  root_count_ok (real_roots_of mem cols sample_ sample_number_).

Definition appended_of (mem : Z -> T) (cols : Z) (sample_ : nat -> Z)
    (sample_number_ : nat) : list (Model T) :=
  if success_of mem cols sample_ sample_number_ then
    candidates (basis_of mem cols sample_ sample_number_).1
               (basis_of mem cols sample_ sample_number_).2
               (real_roots_of mem cols sample_ sample_number_)
  else [].

(** The row of the table the specification means by index [r]: the table
    is row-major with [cols] entries per row. *)
Definition table_row (mem : Z -> T) (cols : Z) (r : Z) : T * T * T * T :=
  (mem (cols * r)%Z, mem (cols * r + 1)%Z, mem (cols * r + 2)%Z, mem (cols * r + 3)%Z).
End Solver.

(** ** A sample to run the solver on *)

(** Seven correspondences [(x, y, x, 1/y)] with [y = 1] or [y = -1], stored
    in a table of four columns.  Every row [(x0, y0, x1, y1)] satisfies
    [x1 = x0] and [y1 * y0 = 1], so the flat matrices [e2 - e6] and
    [e4 - e8] are in the null space of the linear system. *)
Section Example.
Context {T : Type} {scalar : Scalar T}.
Local Open Scope scalar_scope.

Definition two : T := s_one + s_one.
Definition three : T := s_one + s_one + s_one.
Definition minus_one : T := s_zero - s_one.

Definition example_table : list T :=
  [ s_zero; s_one; s_zero; s_one;
    s_one; s_one; s_one; s_one;
    two; s_one; two; s_one;
    three; s_one; three; s_one;
    s_zero; minus_one; s_zero; minus_one;
    s_one; minus_one; s_one; minus_one;
    two; minus_one; two; minus_one ].

Definition example_memory : Z -> T :=
  fun offset => if (offset <? 0)%Z then s_zero else nth (Z.to_nat offset) example_table s_zero.

Definition example_sample : nat -> Z := Z.of_nat.

(** A matrix [V] whose column 7 is [e4 - e8] and whose column 8 is [e2 - e6]. *)
Definition example_V : Matrix T :=
  let z := s_zero in
  [ [z; z; z; z; z; z; z; z; z];
    [z; z; z; z; z; z; z; z; z];
    [z; z; z; z; z; z; z; z; s_one];
    [z; z; z; z; z; z; z; z; z];
    [z; z; z; z; z; z; z; s_one; z];
    [z; z; z; z; z; z; z; z; z];
    [z; z; z; z; z; z; z; z; minus_one];
    [z; z; z; z; z; z; z; z; z];
    [z; z; z; z; z; z; z; minus_one; z] ].

(** With that basis the cubic is [x (x - 1)^2]; its real roots are 0 and 1. *)
Definition example_eigen : EigenLib T :=
  {| svd_matrixV := fun _ => example_V;
     realRoots := fun _ => [s_zero; s_one] |}.

(** The two vectors the solver works with after its subtraction loop. *)
Definition example_f1 : list T :=
  let z := s_zero in [z; z; minus_one; z; s_one; z; s_one; z; minus_one].

Definition example_f2 : list T :=
  let z := s_zero in [z; z; s_one; z; z; z; minus_one; z; z].

Definition example_garbage : Uninitialized T :=
  {| heap_garbage := fun _ _ => s_zero; stack_garbage := fun _ => s_zero |}.

Definition other_garbage : Uninitialized T :=
  {| heap_garbage := fun _ _ => three; stack_garbage := fun _ => two |}.

Definition example_state : state T :=
  {| memory := example_memory; models_ := [] |}.

(** What the caller sees of a run: the flag and the output vector. *)
Definition observe (run : option (bool * state T)) : option (bool * list (Model T)) :=
  match run with
  | Some (success, st) => Some (success, models_ st)
  | None => None
  end.

(** The same correspondences in a table of six columns whose two extra
    columns hold other values, with an output vector that is not empty. *)
Definition wide_memory : Z -> T :=
  fun offset =>
    if (offset <? 0)%Z then three
    else if (offset mod 6 <? 4)%Z
         then nth (Z.to_nat (4 * (offset / 6) + offset mod 6)) example_table three
         else three.

Definition wide_state : state T :=
  {| memory := wide_memory; models_ := [ {| descriptor := [[two]] |} ] |}.
End Example.

(** ** Properties that hold in any arithmetic *)

Section SolverFacts.
Context {T : Type} {scalar : Scalar T} {eigen : EigenLib T} {uninit : Uninitialized T}.
Local Open Scope scalar_scope.

Lemma form_linear_system_run cols sample_ sample_number_ st :
  (7 <= sample_number_)%nat ->
  form_linear_system cols sample_ sample_number_ st
  = Some (coefficients_of (memory st) cols sample_ sample_number_, st).
Proof.
  intros Hn.
  replace sample_number_ with (7 + (sample_number_ - 7))%nat at 1 by lia.
  unfold coefficients_of.
  generalize (sample_number_ - 7)%nat as m. intros m.
  reflexivity.
Qed.

Lemma form_linear_system_undefined cols sample_ sample_number_ st :
  (sample_number_ < 7)%nat ->
  form_linear_system cols sample_ sample_number_ st = None.
Proof.
  intros Hn.
  do 7 (destruct sample_number_ as [|sample_number_]; [reflexivity|]).
  lia.
Qed.
Lemma process_root_run f1 f2 root f st :
  length f = 8%nat ->
  exists f', length f' = 8%nat /\
    process_root f1 f2 root f st
    = Some (f', {| memory := memory st;
                   models_ := models_ st ++ option_list (candidate f1 f2 root) |}).
Proof.
  intros Hf.
  do 8 (destruct f as [|? f]; [discriminate|]).
  destruct f; [|discriminate].
  unfold process_root, candidate, normalizable, normalization_scalar.
  destruct (s_gt _ _).
  - eexists. split; [|reflexivity]. reflexivity.
  - eexists. split; [|destruct st as [mem ms]; cbn; now rewrite app_nil_r].
    reflexivity.
Qed.

Lemma for_each_process_root_run f1 f2 real_roots : forall f st,
  length f = 8%nat ->
  exists f', length f' = 8%nat /\
    for_each real_roots (process_root f1 f2) f st
    = Some (f', {| memory := memory st;
                   models_ := models_ st ++ candidates f1 f2 real_roots |}).
Proof.
  induction real_roots as [|root real_roots IH]; intros f st Hf.
  - exists f. split; [assumption|].
    destruct st as [mem ms]. cbn. now rewrite app_nil_r.
  - destruct (process_root_run f1 f2 root f st Hf) as (f1' & Hf1' & Hrun).
    destruct (IH f1' {| memory := memory st;
                        models_ := models_ st ++ option_list (candidate f1 f2 root) |} Hf1')
      as (f2' & Hf2' & Hrest).
    exists f2'. split; [assumption|].
    cbn [for_each]. unfold bind at 1. rewrite Hrun, Hrest.
    cbn [memory models_]. rewrite <- app_assoc.
    unfold candidates. cbn [omap list_omap].
    now destruct (candidate f1 f2 root).
Qed.

Lemma estimateModel_run cols sample_ sample_number_ st :
  (7 <= sample_number_)%nat ->
  estimateModel cols sample_ sample_number_ st
  = Some (success_of (memory st) cols sample_ sample_number_,
          {| memory := memory st;
             models_ := models_ st ++ appended_of (memory st) cols sample_ sample_number_ |}).
Proof.
  intros Hn.
  unfold estimateModel, bind at 1.
  rewrite form_linear_system_run by assumption.
  unfold appended_of, success_of, real_roots_of, basis_of, root_count_ok.
  destruct (null_space_basis _) as [f1 f2]. cbn [fst snd].
  set (real_roots := solve_cubic (cubic_coefficients f1 f2)).
  destruct ((_ <? 1) || _)%Z; cbn [negb].
  - destruct st as [mem ms]. cbn. now rewrite app_nil_r.
  - unfold bind.
    destruct (for_each_process_root_run f1 f2 real_roots (map stack_garbage (seq 0 8)) st)
      as (f' & _ & Hrun); [reflexivity|].
    now rewrite Hrun.
Qed.

Lemma estimateModel_undefined cols sample_ sample_number_ st :
  (sample_number_ < 7)%nat ->
  estimateModel cols sample_ sample_number_ st = None.
Proof.
  intros Hn. unfold estimateModel, bind.
  now rewrite form_linear_system_undefined.
Qed.
Lemma wrap_int_id z : in_int_range z -> wrap_int z = z.
Proof.
  unfold in_int_range, INT_MIN, INT_MAX, wrap_int. intros Hz.
  rewrite Z.mod_small; lia.
Qed.

Lemma root_count_ok_true (real_roots : list T) :
  (Z.of_nat (length real_roots) <= INT_MAX)%Z ->
  root_count_ok real_roots = true <-> (1 <= length real_roots <= 3)%nat.
Proof.
  intros Hlen. unfold root_count_ok.
  rewrite wrap_int_id by (unfold in_int_range, INT_MIN, INT_MAX in *; lia).
  rewrite negb_true_iff, orb_false_iff, !Z.ltb_ge. lia.
Qed.

Lemma candidates_length f1 f2 (real_roots : list T) :
  length (candidates f1 f2 real_roots)
  = length (List.filter (normalizable f1 f2) real_roots).
Proof.
  unfold candidates.
  induction real_roots as [|root real_roots IH]; [reflexivity|].
  cbn [omap list_omap List.filter]. unfold candidate at 1.
  destruct (normalizable f1 f2 root); cbn [length]; now rewrite IH.
Qed.

Lemma filter_length_zero (P : T -> bool) (l : list T) :
  length (List.filter P l) = 0%nat <-> Forall (fun x => P x = false) l.
Proof.
  induction l as [|x l IH]; cbn [List.filter].
  - split; [constructor|reflexivity].
  - destruct (P x) eqn:HP; cbn [length].
    + split; [discriminate|]. intros HF. inversion HF. congruence.
    + rewrite IH. split; [now constructor|]. intros HF. now inversion HF.
Qed.

(** C1: the call returns [false] exactly when the root finder reports no
    root or more than three, and [true] for one to three roots. *)
Theorem estimateModel_fails_iff_root_count cols sample_ sample_number_ st :
  (7 <= sample_number_)%nat ->
  (Z.of_nat (length (real_roots_of (memory st) cols sample_ sample_number_)) <= INT_MAX)%Z ->
  exists success st',
    estimateModel cols sample_ sample_number_ st = Some (success, st') /\
    (success = false <->
       length (real_roots_of (memory st) cols sample_ sample_number_) = 0%nat \/
       (3 < length (real_roots_of (memory st) cols sample_ sample_number_))%nat) /\
    (success = true <->
       (1 <= length (real_roots_of (memory st) cols sample_ sample_number_) <= 3)%nat).
Proof.
  intros Hn Hlen.
  eexists. eexists. split; [apply estimateModel_run; assumption|].
  unfold success_of.
  pose proof (root_count_ok_true _ Hlen) as Hok.
  destruct (root_count_ok _); split.
  - split; [discriminate|]. intros Hbad.
    assert (Htrue : true = true) by reflexivity. apply Hok in Htrue. lia.
  - exact Hok.
  - split; [|reflexivity]. intros _.
    destruct (length (real_roots_of (memory st) cols sample_ sample_number_)) as [|k] eqn:Hk;
      [now left|right].
    destruct (le_lt_dec (S k) 3) as [Hle|Hgt]; [|exact Hgt].
    assert (Hfalse : false = true) by (apply Hok; lia). discriminate.
  - exact Hok.
Qed.

(** C5: a successful call appends as many models as there are roots that
    pass the normalisation guard, at most three; it appends none exactly
    when one to three roots were found and every one was skipped. *)
Theorem successful_call_candidate_count cols sample_ sample_number_ st :
  (7 <= sample_number_)%nat ->
  (Z.of_nat (length (real_roots_of (memory st) cols sample_ sample_number_)) <= INT_MAX)%Z ->
  exists success appended,
    estimateModel cols sample_ sample_number_ st
    = Some (success, {| memory := memory st; models_ := models_ st ++ appended |}) /\
    (success = true ->
       (length appended <= 3)%nat /\
       length appended
       = length (List.filter
                   (normalizable (basis_of (memory st) cols sample_ sample_number_).1
                                 (basis_of (memory st) cols sample_ sample_number_).2)
                   (real_roots_of (memory st) cols sample_ sample_number_))) /\
    (success = true /\ length appended = 0%nat <->
       (1 <= length (real_roots_of (memory st) cols sample_ sample_number_) <= 3)%nat /\
       Forall (fun root =>
                 normalizable (basis_of (memory st) cols sample_ sample_number_).1
                              (basis_of (memory st) cols sample_ sample_number_).2
                              root = false)
              (real_roots_of (memory st) cols sample_ sample_number_)).
Proof.
  intros Hn Hlen.
  eexists. eexists. split; [apply estimateModel_run; assumption|].
  unfold appended_of, success_of.
  pose proof (root_count_ok_true _ Hlen) as Hok.
  set (real_roots := real_roots_of (memory st) cols sample_ sample_number_) in *.
  set (f1 := (basis_of (memory st) cols sample_ sample_number_).1).
  set (f2 := (basis_of (memory st) cols sample_ sample_number_).2).
  pose proof (candidates_length f1 f2 real_roots) as Hcount.
  pose proof (List.filter_length_le (normalizable f1 f2) real_roots) as Hle.
  destruct (root_count_ok real_roots).
  - assert (Hrange : (1 <= length real_roots <= 3)%nat) by now apply Hok.
    split; [intros _; split; [lia|exact Hcount]|].
    rewrite Hcount, filter_length_zero. tauto.
  - split; [discriminate|].
    split; [intros [? _]; discriminate|].
    intros [Hrange _]. apply Hok in Hrange. discriminate.
Qed.

(** C9: the call leaves the memory behind the table as it was and only
    appends to the output vector; a call that returns [false] appends
    nothing. *)
Theorem estimateModel_only_appends cols sample_ sample_number_ st :
  (7 <= sample_number_)%nat ->
  exists success appended st',
    estimateModel cols sample_ sample_number_ st = Some (success, st') /\
    memory st' = memory st /\
    models_ st' = models_ st ++ appended /\
    (success = false -> appended = []).
Proof.
  intros Hn.
  exists (success_of (memory st) cols sample_ sample_number_).
  exists (appended_of (memory st) cols sample_ sample_number_).
  eexists. split; [apply estimateModel_run; assumption|].
  cbn [memory models_]. repeat split.
  unfold appended_of. now intros ->.
Qed.
Lemma sampled_correspondence_table_row (mem : Z -> T) cols sample_ i :
  in_int_range (sample_ i) ->
  in_int_range (cols * sample_ i) ->
  in_int_range (cols * sample_ i + 3) ->
  sampled_correspondence mem cols sample_ i = table_row mem cols (sample_ i).
Proof.
  intros Hidx Hlo Hhi. unfold sampled_correspondence, table_row.
  rewrite (wrap_int_id (sample_ i)) by assumption.
  rewrite (wrap_int_id (cols * sample_ i)) by assumption.
  rewrite !wrap_int_id; [reflexivity|..];
    unfold in_int_range, INT_MIN, INT_MAX in *; lia.
Qed.

(** C6: for a sample of seven, the coefficient matrix has seven rows of
    nine entries, and row [i] is made of the four values of table row
    [sample_[i]] by the fixed products. *)
Theorem coefficient_matrix_rows cols sample_ sample_number_ st :
  sample_number_ = 7%nat ->
  (forall i, (i < 7)%nat ->
     in_int_range (sample_ i) /\
     in_int_range (cols * sample_ i) /\
     in_int_range (cols * sample_ i + 3)) ->
  exists coefficients,
    form_linear_system cols sample_ sample_number_ st = Some (coefficients, st) /\
    length coefficients = 7%nat /\
    Forall (fun row => length row = 9%nat) coefficients /\
    forall i, (i < 7)%nat ->
      coefficients !! i
      = Some (let '(x0, y0, x1, y1) := table_row (memory st) cols (sample_ i) in
              [x1 * x0; x1 * y0; x1; y1 * x0; y1 * y0; y1; x0; y0; s_one]).
Proof.
  intros -> Hrows.
  eexists. split; [apply form_linear_system_run; lia|].
  unfold coefficients_of. cbn [seq map Nat.sub app].
  split; [reflexivity|]. split; [repeat constructor|].
  intros i Hi.
  destruct (Hrows i Hi) as (Hidx & Hlo & Hhi).
  rewrite <- (sampled_correspondence_table_row (memory st) cols sample_ i) by assumption.
  do 7 (destruct i as [|i]; [reflexivity|]). lia.
Qed.

Lemma coefficients_of_ncols (mem : Z -> T) cols sample_ sample_number_ :
  ncols (coefficients_of mem cols sample_ sample_number_) = 9%nat.
Proof.
  unfold coefficients_of, coefficient_row. cbn.
  now destruct (sampled_correspondence mem cols sample_ 0) as [[[? ?] ?] ?].
Qed.

(** C7: the matrix handed to the decomposition is the 9x9 matrix of the
    normal equations; [f2] is column 8 of the resulting [V], and [f1] is
    column 7 with [f2] subtracted entry by entry. *)
Theorem null_space_basis_columns cols sample_ sample_number_ st :
  (7 <= sample_number_)%nat ->
  exists coefficients,
    form_linear_system cols sample_ sample_number_ st = Some (coefficients, st) /\
    normal_equations coefficients
    = map (fun i => map (fun j => dot (column coefficients i) (column coefficients j))
                        (seq 0 9))
          (seq 0 9) /\
    null_space_basis coefficients
    = (map (fun i =>
              coeff (svd_matrixV (normal_equations coefficients)) i 7
              - coeff (svd_matrixV (normal_equations coefficients)) i 8)
           (seq 0 9),
       map (fun i => coeff (svd_matrixV (normal_equations coefficients)) i 8)
           (seq 0 9)).
Proof.
  intros Hn.
  eexists. split; [apply form_linear_system_run; assumption|].
  split.
  - unfold normal_equations, mat_mul, transpose. rewrite coefficients_of_ncols.
    now rewrite List.map_map.
  - reflexivity.
Qed.

End SolverFacts.

Section Determinism.
Context {T : Type} {scalar : Scalar T} {eigen : EigenLib T}.

(** C10: two calls on a sample of seven that read the same four values for
    each element of the sample return the same flag and append the same
    models, whatever else the memory, the row stride, the uninitialised
    storage and the output vectors hold. *)
Theorem estimateModel_deterministic (garbage garbage' : Uninitialized T)
    cols cols' sample_ sample_' (st st' : state T) :
  (forall i, (i < 7)%nat -> sample_ i = sample_' i) ->
  (forall i, (i < 7)%nat ->
     sampled_correspondence (memory st) cols sample_ i
     = sampled_correspondence (memory st') cols' sample_' i) ->
  exists success appended,
    estimateModel (uninit := garbage) cols sample_ 7 st
    = Some (success, {| memory := memory st; models_ := models_ st ++ appended |}) /\
    estimateModel (uninit := garbage') cols' sample_' 7 st'
    = Some (success, {| memory := memory st'; models_ := models_ st' ++ appended |}).
Proof.
  intros _ Hsame.
  exists (success_of (uninit := garbage) (memory st) cols sample_ 7).
  exists (appended_of (uninit := garbage) (memory st) cols sample_ 7).
  rewrite (estimateModel_run (uninit := garbage)) by lia.
  rewrite (estimateModel_run (uninit := garbage')) by lia.
  split; [reflexivity|].
  assert (Hcoef : coefficients_of (uninit := garbage') (memory st') cols' sample_' 7
                  = coefficients_of (uninit := garbage) (memory st) cols sample_ 7).
  { unfold coefficients_of. cbn [seq map Nat.sub app].
    now rewrite !Hsame by lia. }
  unfold appended_of, success_of, real_roots_of, basis_of.
  now rewrite Hcoef.
Qed.
End Determinism.

(** ** Properties in exact real arithmetic *)

Section RealArithmetic.
Context {eigen : EigenLib R} {uninit : Uninitialized R}.
Local Open Scope R_scope.

Lemma Rgtb_true x y : Rgtb x y = true <-> x > y.
Proof. unfold Rgtb. destruct (Rgt_dec x y); split; intros; try assumption; try reflexivity; try discriminate; contradiction. Qed.

Lemma Rgtb_false x y : Rgtb x y = false <-> x <= y.
Proof. unfold Rgtb. destruct (Rgt_dec x y); split; intros; try reflexivity; try discriminate; lra. Qed.

Lemma epsilon_positive : 0 < s_epsilon.
Proof. cbn. lra. Qed.

Lemma normalizable_nonzero (f1 f2 : list R) root :
  normalizable f1 f2 root = true -> f1.[8] * root + f2.[8] <> 0.
Proof.
  unfold normalizable, normalization_scalar. cbn [s_gt s_fabs s_add s_mul real_scalar].
  rewrite Rgtb_true. intros Hgt Hzero. rewrite Hzero, Rabs_R0 in Hgt.
  pose proof epsilon_positive. lra.
Qed.

(** C3: the four numbers [c[0..3]] are the coefficients, from the constant
    term up, of the determinant of [lambda * f1 + f2] read as a 3x3
    matrix. *)
Theorem cubic_coefficients_determinant (f1 f2 : list R) (lambda : R) :
  det3 (reshape3x3 (pencil lambda f1 f2))
  = (cubic_coefficients f1 f2).[0]
    + (cubic_coefficients f1 f2).[1] * lambda
    + (cubic_coefficients f1 f2).[2] * lambda ^ 2
    + (cubic_coefficients f1 f2).[3] * lambda ^ 3.
Proof.
  unfold det3, reshape3x3, pencil, cubic_coefficients, coeff.
  cbn [seq map nth vget s_add s_sub s_mul real_scalar].
  ring.
Qed.

(** X15: the loop body in exact real arithmetic, for a root [lambda] with
    [s = f1[8] * lambda + f2[8]]: when [|s| <= epsilon] it appends nothing;
    otherwise it appends exactly one 3x3 model whose first eight entries in
    row-major order are [f1[i] * (lambda * (1 / s)) + f2[i] * (1 / s)] and
    whose last entry is 1. *)
Theorem process_root_appends_normalized (f1 f2 f : list R) (lambda : R) (st : state R) :
  length f = 8%nat ->
  exists f' st',
    process_root f1 f2 lambda f st = Some (f', st') /\
    memory st' = memory st /\
    (Rabs (f1.[8] * lambda + f2.[8]) <= s_epsilon -> models_ st' = models_ st) /\
    (~ Rabs (f1.[8] * lambda + f2.[8]) <= s_epsilon ->
     exists F,
       models_ st' = models_ st ++ [F] /\
       length (descriptor F) = 3%nat /\
       Forall (fun row => length row = 3%nat) (descriptor F) /\
       (forall i, (i < 8)%nat ->
          (row_major (descriptor F)).[i]
          = f1.[i] * (lambda * (1 / (f1.[8] * lambda + f2.[8])))
            + f2.[i] * (1 / (f1.[8] * lambda + f2.[8]))) /\
       coeff (descriptor F) 2 2 = 1).
Proof.
  intros Hf.
  destruct (process_root_run f1 f2 lambda f st Hf) as (f' & _ & Hrun).
  exists f'. eexists. split; [exact Hrun|].
  cbn [memory models_]. split; [reflexivity|].
  unfold candidate, normalizable, normalization_scalar.
  cbn [s_gt s_fabs s_add s_mul s_div s_one real_scalar].
  destruct (Rgtb _ _) eqn:Hguard.
  - apply Rgtb_true in Hguard. split; [intros Hle; lra|].
    intros _. eexists. split; [reflexivity|].
    cbn [descriptor]. split; [reflexivity|]. split; [repeat constructor|].
    split; [|reflexivity].
    intros i Hi.
    do 8 (destruct i as [|i]; [reflexivity|]). lia.
  - apply Rgtb_false in Hguard. split; [intros _; apply app_nil_r|].
    intros Hnot. contradiction.
Qed.
Lemma candidates_In (f1 f2 real_roots : list R) F :
  In F (candidates f1 f2 real_roots) ->
  exists root, In root real_roots /\ candidate f1 f2 root = Some F.
Proof.
  unfold candidates. rewrite <- list_elem_of_In, list_elem_of_omap.
  intros (root & Hin & Hcand). exists root. now rewrite <- list_elem_of_In.
Qed.

Lemma sum_of_squares_zero (d0 d1 d2 d3 d4 d5 d6 : R) :
  d0 * d0 + d1 * d1 + d2 * d2 + d3 * d3 + d4 * d4 + d5 * d5 + d6 * d6 = 0 ->
  d0 = 0 /\ d1 = 0 /\ d2 = 0 /\ d3 = 0 /\ d4 = 0 /\ d5 = 0 /\ d6 = 0.
Proof. intros Hsum. repeat split; nra. Qed.

Ltac nine_entries row :=
  let Hlen := fresh "Hlen" in
  intros Hlen;
  do 9 (destruct row as [|? row]; [discriminate Hlen|]);
  destruct row; [clear Hlen|discriminate Hlen].

(** A vector that the normal equations send to zero is sent to zero by the
    system itself: [v' A' A v] is the sum of the squares of the entries
    of [A v]. *)
Lemma normal_equations_null_space (r0 r1 r2 r3 r4 r5 r6 v : list R) :
  length r0 = 9%nat -> length r1 = 9%nat -> length r2 = 9%nat ->
  length r3 = 9%nat -> length r4 = 9%nat -> length r5 = 9%nat ->
  length r6 = 9%nat -> length v = 9%nat ->
  mat_vec (normal_equations [r0; r1; r2; r3; r4; r5; r6]) v = repeat 0 9 ->
  Forall (fun row => dot row v = 0) [r0; r1; r2; r3; r4; r5; r6].
Proof.
  intros L0 L1 L2 L3 L4 L5 L6 Lv Hnull.
  assert (Hsq : dot r0 v * dot r0 v + dot r1 v * dot r1 v + dot r2 v * dot r2 v
                + dot r3 v * dot r3 v + dot r4 v * dot r4 v + dot r5 v * dot r5 v
                + dot r6 v * dot r6 v = 0).
  { revert Hnull.
    revert L0; nine_entries r0. revert L1; nine_entries r1. revert L2; nine_entries r2.
    revert L3; nine_entries r3. revert L4; nine_entries r4. revert L5; nine_entries r5.
    revert L6; nine_entries r6.
    destruct v as [|v0 [|v1 [|v2 [|v3 [|v4 [|v5 [|v6 [|v7 [|v8 [|? ?]]]]]]]]]];
      try discriminate Lv.
    unfold mat_vec, normal_equations, mat_mul, transpose, column, dot.
    cbn [ncols length seq map zip_with fold_right nth vget repeat
         s_add s_mul s_zero real_scalar].
    intros Hnull.
    injection Hnull as E0 E1 E2 E3 E4 E5 E6 E7 E8.
    lazymatch goal with
    | |- ?S = 0 =>
        lazymatch type of E0 with ?G0 = _ =>
        lazymatch type of E1 with ?G1 = _ =>
        lazymatch type of E2 with ?G2 = _ =>
        lazymatch type of E3 with ?G3 = _ =>
        lazymatch type of E4 with ?G4 = _ =>
        lazymatch type of E5 with ?G5 = _ =>
        lazymatch type of E6 with ?G6 = _ =>
        lazymatch type of E7 with ?G7 = _ =>
        lazymatch type of E8 with ?G8 = _ =>
          replace S with (v0 * G0 + v1 * G1 + v2 * G2 + v3 * G3 + v4 * G4
                          + v5 * G5 + v6 * G6 + v7 * G7 + v8 * G8) by ring
        end end end end end end end end end
    end.
    rewrite E0, E1, E2, E3, E4, E5, E6, E7, E8. ring. }
  apply sum_of_squares_zero in Hsq.
  destruct Hsq as (? & ? & ? & ? & ? & ? & ?).
  repeat constructor; assumption.
Qed.
Lemma det3_pencil (f1 f2 : list R) (lambda : R) :
  det3 (reshape3x3 (pencil lambda f1 f2)) = eval_cubic (cubic_coefficients f1 f2) lambda.
Proof.
  unfold det3, reshape3x3, pencil, eval_cubic, cubic_coefficients, coeff.
  cbn [seq map nth vget s_add s_sub s_mul real_scalar].
  ring.
Qed.

Lemma candidate_det3 (f1 f2 : list R) (root : R) F :
  candidate f1 f2 root = Some F ->
  f1.[8] * root + f2.[8] <> 0 /\
  det3 (descriptor F)
  = (1 / (f1.[8] * root + f2.[8])) ^ 3 * det3 (reshape3x3 (pencil root f1 f2)).
Proof.
  unfold candidate. destruct (normalizable f1 f2 root) eqn:Hguard; [|discriminate].
  apply normalizable_nonzero in Hguard.
  intros [= <-]. split; [exact Hguard|].
  unfold det3, reshape3x3, pencil, coeff, normalization_scalar.
  cbn [descriptor seq map nth vget s_add s_sub s_mul s_div s_one real_scalar].
  field. exact Hguard.
Qed.

(** C8: every model the call appends is singular: its determinant is
    [(1 / s)^3] times the determinant of [lambda * f1 + f2] for the root
    [lambda] it comes from, and that is zero when the root finder returns
    roots of the cubic. *)
Theorem candidates_are_singular cols sample_ sample_number_ (st : state R) :
  (7 <= sample_number_)%nat ->
  (forall root,
     In root (real_roots_of (memory st) cols sample_ sample_number_) ->
     eval_cubic (cubic_coefficients (basis_of (memory st) cols sample_ sample_number_).1
                                    (basis_of (memory st) cols sample_ sample_number_).2)
                root = 0) ->
  exists success appended,
    estimateModel cols sample_ sample_number_ st
    = Some (success, {| memory := memory st; models_ := models_ st ++ appended |}) /\
    forall F, In F appended ->
      det3 (descriptor F) = 0 /\
      exists lambda,
        In lambda (real_roots_of (memory st) cols sample_ sample_number_) /\
        normalization_scalar (basis_of (memory st) cols sample_ sample_number_).1
                             (basis_of (memory st) cols sample_ sample_number_).2
                             lambda <> 0 /\
        det3 (descriptor F)
        = (1 / normalization_scalar (basis_of (memory st) cols sample_ sample_number_).1
                                    (basis_of (memory st) cols sample_ sample_number_).2
                                    lambda) ^ 3
          * det3 (reshape3x3
                    (pencil lambda (basis_of (memory st) cols sample_ sample_number_).1
                                   (basis_of (memory st) cols sample_ sample_number_).2)).
Proof.
  intros Hn Hroots.
  exists (success_of (memory st) cols sample_ sample_number_).
  exists (appended_of (memory st) cols sample_ sample_number_).
  split; [apply estimateModel_run; assumption|].
  intros F HF. unfold appended_of in HF.
  destruct (success_of _ _ _ _); [|contradiction].
  apply candidates_In in HF. destruct HF as (root & Hin & Hcand).
  apply candidate_det3 in Hcand. destruct Hcand as (Hs & Hdet).
  split.
  - rewrite Hdet, det3_pencil, (Hroots root Hin). ring.
  - exists root. repeat split; assumption.
Qed.
Lemma coefficient_row_length (p : R * R * R * R) : length (coefficient_row p) = 9%nat.
Proof. now destruct p as [[[x0 y0] x1] y1]. Qed.

(** A model built from two vectors [a] and [b] that solve the equation of
    a correspondence solves it too. *)
Lemma candidate_epipolar (a b : list R) (root : R) F (p : R * R * R * R) :
  length a = 9%nat -> length b = 9%nat ->
  dot (coefficient_row p) a = 0 ->
  dot (coefficient_row p) b = 0 ->
  candidate (subtract_basis a b) b root = Some F ->
  epipolar_form (descriptor F) p = 0.
Proof.
  intros La Lb.
  destruct a as [|a0 [|a1 [|a2 [|a3 [|a4 [|a5 [|a6 [|a7 [|a8 [|? ?]]]]]]]]]];
    try discriminate La.
  destruct b as [|b0 [|b1 [|b2 [|b3 [|b4 [|b5 [|b6 [|b7 [|b8 [|? ?]]]]]]]]]];
    try discriminate Lb.
  destruct p as [[[x0 y0] x1] y1].
  unfold candidate. destruct (normalizable _ _ root) eqn:Hguard; [|discriminate].
  apply normalizable_nonzero in Hguard.
  intros Ha Hb [= <-]. revert Ha Hb Hguard.
  unfold epipolar_form, mat_vec, dot, coefficient_row, subtract_basis, normalization_scalar.
  cbn [descriptor seq map fold_left fold_right zip_with nth vget insert list_insert
       s_add s_sub s_mul s_div s_one s_zero real_scalar].
  intros Ha Hb Hs.
  assert (Ha8 : a8 = - (x1 * x0 * a0 + x1 * y0 * a1 + x1 * a2 + y1 * x0 * a3
                        + y1 * y0 * a4 + y1 * a5 + x0 * a6 + y0 * a7)) by lra.
  assert (Hb8 : b8 = - (x1 * x0 * b0 + x1 * y0 * b1 + x1 * b2 + y1 * x0 * b3
                        + y1 * y0 * b4 + y1 * b5 + x0 * b6 + y0 * b7)) by lra.
  clear Ha Hb. revert Hs. rewrite Ha8, Hb8. intros Hs.
  field. exact Hs.
Qed.

(** X14: in exact real arithmetic, when the last two columns of [V] are
    sent to zero by the normal equations (their singular values are zero,
    the system having seven rows), every model the call appends satisfies
    the epipolar equation of each of the seven sampled correspondences
    exactly. *)
Theorem candidates_satisfy_epipolar_constraint cols sample_ (st : state R) :
  mat_vec (normal_equations (coefficients_of (memory st) cols sample_ 7))
          (block_9_1 (svd_matrixV (normal_equations
                                     (coefficients_of (memory st) cols sample_ 7))) 7)
  = repeat 0 9 ->
  mat_vec (normal_equations (coefficients_of (memory st) cols sample_ 7))
          (block_9_1 (svd_matrixV (normal_equations
                                     (coefficients_of (memory st) cols sample_ 7))) 8)
  = repeat 0 9 ->
  exists success appended,
    estimateModel cols sample_ 7 st
    = Some (success, {| memory := memory st; models_ := models_ st ++ appended |}) /\
    forall F, In F appended ->
    forall i, (i < 7)%nat ->
      epipolar_form (descriptor F) (sampled_correspondence (memory st) cols sample_ i) = 0.
Proof.
  intros Hnull7 Hnull8.
  exists (success_of (memory st) cols sample_ 7).
  exists (appended_of (memory st) cols sample_ 7).
  split; [apply estimateModel_run; lia|].
  intros F HF i Hi. unfold appended_of in HF.
  destruct (success_of _ _ _ _); [|contradiction].
  apply candidates_In in HF. destruct HF as (root & _ & Hcand).
  unfold basis_of, null_space_basis in Hcand. cbn [fst snd] in Hcand.
  set (A := coefficients_of (memory st) cols sample_ 7) in *.
  set (V := svd_matrixV (normal_equations A)) in *.
  assert (Hrows : forall v, length v = 9%nat ->
            mat_vec (normal_equations A) v = repeat 0 9 ->
            dot (coefficient_row (sampled_correspondence (memory st) cols sample_ i)) v = 0).
  { intros v Lv Hv.
    apply normal_equations_null_space in Hv;
      [|apply coefficient_row_length..|exact Lv].
    rewrite List.Forall_forall in Hv. apply Hv.
    apply (in_map (fun k => coefficient_row
                              (sampled_correspondence (memory st) cols sample_ k))
                  (seq 0 7) i).
    apply in_seq. lia. }
  apply (candidate_epipolar (block_9_1 V 7) (block_9_1 V 8) root);
    [reflexivity|reflexivity|apply Hrows|apply Hrows|exact Hcand];
    first [reflexivity|assumption].
Qed.
End RealArithmetic.

(** ** The theorems at the sample *)

Section Witnesses.
#[local] Existing Instance example_eigen.
#[local] Existing Instance example_garbage.

(** On doubles the cubic of the sample is [x - 2 x^2 + x^3]; the root 0 has
    [s = 0] and is skipped, the root 1 gives one model. *)
Example cubic_of_sample :
  cubic_coefficients (T := float) example_f1 example_f2
  = [0; 1; -2; 1]%float.
Proof. vm_compute. reflexivity. Qed.

Example basis_of_sample :
  basis_of (T := float) (memory example_state) 4 example_sample 7
  = (example_f1, example_f2).
Proof. vm_compute. reflexivity. Qed.

Example estimateModel_on_sample :
  observe (estimateModel (T := float) 4 example_sample 7 example_state)
  = Some (true, [ {| descriptor := [ [-0; -0; 0]; [-0; -1; -0]; [0; -0; 1] ]%float |} ]).
Proof. vm_compute. reflexivity. Qed.

Example estimateModel_on_wide_table :
  observe (estimateModel (T := float) (uninit := other_garbage) 6 example_sample 7 wide_state)
  = Some (true, [ {| descriptor := [ [2]%float ] |};
                  {| descriptor := [ [-0; -0; 0]; [-0; -1; -0]; [0; -0; 1] ]%float |} ]).
Proof. vm_compute. reflexivity. Qed.

Example estimateModel_larger_sample_number :
  observe (estimateModel (T := float) (uninit := other_garbage) 4 example_sample 9 example_state)
  = Some (true, [ {| descriptor := [ [-0; -0; 0]; [-0; -1; -0]; [0; -0; 1] ]%float |} ]).
Proof. vm_compute. reflexivity. Qed.

Example estimateModel_short_matrix :
  estimateModel (T := float) 4 example_sample 6 example_state = None.
Proof. reflexivity. Qed.

Lemma estimateModel_fails_iff_root_count_witness :
  exists success st',
    estimateModel (T := float) 4 example_sample 7 example_state = Some (success, st') /\
    (success = false <->
       length (real_roots_of (T := float) (memory example_state) 4 example_sample 7) = 0%nat \/
       (3 < length (real_roots_of (T := float) (memory example_state) 4 example_sample 7))%nat) /\
    (success = true <->
       (1 <= length (real_roots_of (T := float) (memory example_state) 4 example_sample 7) <= 3)%nat).
Proof.
  apply (estimateModel_fails_iff_root_count 4 example_sample 7 example_state).
  - lia.
  - vm_compute. discriminate.
Defined.

Lemma successful_call_candidate_count_witness :
  exists success appended,
    estimateModel (T := float) 4 example_sample 7 example_state
    = Some (success, {| memory := memory example_state;
                        models_ := models_ example_state ++ appended |}) /\
    (success = true ->
       (length appended <= 3)%nat /\
       length appended
       = length (List.filter
                   (normalizable
                      (basis_of (T := float) (memory example_state) 4 example_sample 7).1
                      (basis_of (T := float) (memory example_state) 4 example_sample 7).2)
                   (real_roots_of (T := float) (memory example_state) 4 example_sample 7))) /\
    (success = true /\ length appended = 0%nat <->
       (1 <= length (real_roots_of (T := float) (memory example_state) 4 example_sample 7)
        <= 3)%nat /\
       Forall (fun root =>
                 normalizable
                   (basis_of (T := float) (memory example_state) 4 example_sample 7).1
                   (basis_of (T := float) (memory example_state) 4 example_sample 7).2
                   root = false)
              (real_roots_of (T := float) (memory example_state) 4 example_sample 7)).
Proof.
  apply (successful_call_candidate_count 4 example_sample 7 example_state).
  - lia.
  - vm_compute. discriminate.
Defined.

Lemma estimateModel_only_appends_witness :
  exists success appended st',
    estimateModel (T := float) 4 example_sample 7 example_state = Some (success, st') /\
    memory st' = memory example_state /\
    models_ st' = models_ example_state ++ appended /\
    (success = false -> appended = []).
Proof.
  apply (estimateModel_only_appends 4 example_sample 7 example_state). lia.
Defined.

Lemma coefficient_matrix_rows_witness :
  exists coefficients,
    form_linear_system (T := float) 4 example_sample 7 example_state
    = Some (coefficients, example_state) /\
    length coefficients = 7%nat /\
    Forall (fun row => length row = 9%nat) coefficients /\
    forall i, (i < 7)%nat ->
      coefficients !! i
      = Some (let '(x0, y0, x1, y1) :=
                table_row (memory example_state) 4 (example_sample i) in
              [x1 * x0; x1 * y0; x1; y1 * x0; y1 * y0; y1; x0; y0; s_one]%S).
Proof.
  apply (coefficient_matrix_rows 4 example_sample 7 example_state).
  - reflexivity.
  - intros i Hi. unfold in_int_range, INT_MIN, INT_MAX, example_sample. lia.
Defined.

Lemma null_space_basis_columns_witness :
  exists coefficients,
    form_linear_system (T := float) 4 example_sample 7 example_state
    = Some (coefficients, example_state) /\
    normal_equations coefficients
    = map (fun i => map (fun j => dot (column coefficients i) (column coefficients j))
                        (seq 0 9))
          (seq 0 9) /\
    null_space_basis coefficients
    = (map (fun i =>
              (coeff (svd_matrixV (normal_equations coefficients)) i 7
               - coeff (svd_matrixV (normal_equations coefficients)) i 8)%S)
           (seq 0 9),
       map (fun i => coeff (svd_matrixV (normal_equations coefficients)) i 8)
           (seq 0 9)).
Proof.
  apply (null_space_basis_columns 4 example_sample 7 example_state). lia.
Defined.
Lemma estimateModel_deterministic_witness :
  exists success appended,
    estimateModel (T := float) (uninit := example_garbage) 4 example_sample 7 example_state
    = Some (success, {| memory := memory example_state;
                        models_ := models_ example_state ++ appended |}) /\
    estimateModel (T := float) (uninit := other_garbage) 6 example_sample 7 wide_state
    = Some (success, {| memory := memory wide_state;
                        models_ := models_ wide_state ++ appended |}).
Proof.
  apply (estimateModel_deterministic example_garbage other_garbage
           4 6 example_sample example_sample example_state wide_state).
  - reflexivity.
  - intros i Hi.
    do 7 (destruct i as [|i]; [vm_compute; reflexivity|]). lia.
Defined.

Lemma process_root_appends_normalized_witness :
  exists f' st',
   (process_root (T := R) example_f1 example_f2 1%R (repeat 0%R 8) example_state
    = Some (f', st') /\
    memory st' = memory example_state /\
    (Rabs (vget example_f1 8 * 1 + vget example_f2 8) <= s_epsilon ->
     models_ st' = models_ example_state) /\
    (~ Rabs (vget example_f1 8 * 1 + vget example_f2 8) <= s_epsilon ->
     exists F,
       models_ st' = models_ example_state ++ [F] /\
       length (descriptor F) = 3%nat /\
       Forall (fun row => length row = 3%nat) (descriptor F) /\
       (forall i, (i < 8)%nat ->
          vget (row_major (descriptor F)) i
          = vget example_f1 i * (1 * (1 / (vget example_f1 8 * 1 + vget example_f2 8)))
            + vget example_f2 i * (1 / (vget example_f1 8 * 1 + vget example_f2 8))) /\
       coeff (descriptor F) 2 2 = 1))%R.
Proof.
  apply (process_root_appends_normalized example_f1 example_f2 (repeat 0%R 8)
           1%R example_state).
  reflexivity.
Defined.

Lemma candidates_are_singular_witness :
  exists success appended,
    estimateModel (T := R) 4 example_sample 7 example_state
    = Some (success, {| memory := memory example_state;
                        models_ := models_ example_state ++ appended |}) /\
    forall F, In F appended ->
      det3 (descriptor F) = 0%R /\
      exists lambda,
        In lambda (real_roots_of (T := R) (memory example_state) 4 example_sample 7) /\
        normalization_scalar
          (basis_of (T := R) (memory example_state) 4 example_sample 7).1
          (basis_of (T := R) (memory example_state) 4 example_sample 7).2 lambda <> 0%R /\
        det3 (descriptor F)
        = ((1 / normalization_scalar
                  (basis_of (T := R) (memory example_state) 4 example_sample 7).1
                  (basis_of (T := R) (memory example_state) 4 example_sample 7).2 lambda) ^ 3
           * det3 (reshape3x3
                     (pencil lambda
                        (basis_of (T := R) (memory example_state) 4 example_sample 7).1
                        (basis_of (T := R) (memory example_state) 4 example_sample 7).2)))%R.
Proof.
  apply (candidates_are_singular 4 example_sample 7 example_state).
  - lia.
  - intros root Hroot.
    change (In root [0%R; 1%R]) in Hroot.
    destruct Hroot as [<-|[<-|[]]];
      cbv -[Rplus Rmult Rminus Rdiv Rinv Ropp IZR]; ring.
Defined.

Lemma candidates_satisfy_epipolar_constraint_witness :
  exists success appended,
    estimateModel (T := R) 4 example_sample 7 example_state
    = Some (success, {| memory := memory example_state;
                        models_ := models_ example_state ++ appended |}) /\
    forall F, In F appended ->
    forall i, (i < 7)%nat ->
      epipolar_form (descriptor F)
        (sampled_correspondence (memory example_state) 4 example_sample i) = 0%R.
Proof.
  apply (candidates_satisfy_epipolar_constraint 4 example_sample example_state).
  - cbv -[Rplus Rmult Rminus Rdiv Rinv Ropp IZR]. repeat (f_equal; try ring).
  - cbv -[Rplus Rmult Rminus Rdiv Rinv Ropp IZR]. repeat (f_equal; try ring).
Defined.
End Witnesses.

(** ** Further properties of the call, in any arithmetic *)

Section CallFacts.
Context {T : Type} {scalar : Scalar T} {eigen : EigenLib T} {uninit : Uninitialized T}.
Local Open Scope scalar_scope.

Lemma length_coefficient_row (p : T * T * T * T) : length (coefficient_row p) = 9%nat.
Proof. now destruct p as [[[x0 y0] x1] y1]. Qed.

Lemma map_lookup {A B} (g : A -> B) (l : list A) : forall i,
  map g l !! i = option_map g (l !! i).
Proof.
  induction l as [|x l IH]; intros [|i]; cbn; try reflexivity. apply IH.
Qed.

(** X1: the matrix is allocated with [sample_number_] rows and the loop
    assigns to rows 0 to 6, so with fewer than seven rows an assignment
    falls outside the matrix: the call is undefined, whatever the table,
    the sample and the output vector hold. *)
Theorem estimateModel_needs_seven_rows cols sample_ sample_number_ (st : state T) :
  (sample_number_ < 7)%nat ->
  estimateModel cols sample_ sample_number_ st = None.
Proof.
  intros Hn. unfold estimateModel, bind.
  now rewrite form_linear_system_undefined.
Qed.

(** X2: the matrix has [sample_number_] rows of nine entries; the loop
    fills rows 0 to 6 from the values it reads, and every further row keeps
    the uninitialised content it was allocated with. *)
Theorem coefficient_matrix_unwritten_rows cols sample_ sample_number_ (st : state T) :
  (7 <= sample_number_)%nat ->
  exists coefficients,
    form_linear_system cols sample_ sample_number_ st = Some (coefficients, st) /\
    length coefficients = sample_number_ /\
    Forall (fun row => length row = 9%nat) coefficients /\
    (forall i, (i < 7)%nat ->
       coefficients !! i
       = Some (coefficient_row (sampled_correspondence (memory st) cols sample_ i))) /\
    (forall i, (7 <= i < sample_number_)%nat ->
       coefficients !! i = Some (map (heap_garbage i) (seq 0 9))).
Proof.
  intros Hn.
  eexists. split; [apply form_linear_system_run; assumption|].
  unfold coefficients_of, Matrix.
  split; [|split; [|split]].
  - rewrite length_app, !length_map, !length_seq. lia.
  - apply Forall_app. split.
    + cbn [seq map]. repeat constructor; apply length_coefficient_row.
    + apply List.Forall_forall. intros row Hrow.
      apply in_map_iff in Hrow. destruct Hrow as (i & <- & _). reflexivity.
  - intros i Hi. rewrite lookup_app_l by (rewrite length_map, length_seq; lia).
    rewrite map_lookup, lookup_seq_lt by lia. reflexivity.
  - intros i Hi. rewrite lookup_app_r by (rewrite length_map, length_seq; lia).
    rewrite length_map, length_seq, map_lookup, lookup_seq_lt by lia.
    cbn [option_map]. now replace (7 + (i - 7))%nat with i by lia.
Qed.
Lemma candidate_shape f1 f2 (root : T) F :
  candidate f1 f2 root = Some F ->
  length (descriptor F) = 3%nat /\
  Forall (fun row => length row = 3%nat) (descriptor F) /\
  coeff (descriptor F) 2 2 = s_one.
Proof.
  unfold candidate. destruct (normalizable f1 f2 root); [|discriminate].
  intros [= <-]. cbn [descriptor]. split; [reflexivity|]. split; [|reflexivity].
  repeat constructor.
Qed.

Lemma candidates_follow_roots f1 f2 (real_roots : list T) :
  Forall2 (fun root F => candidate f1 f2 root = Some F)
          (List.filter (normalizable f1 f2) real_roots)
          (candidates f1 f2 real_roots).
Proof.
  unfold candidates.
  induction real_roots as [|root real_roots IH]; [constructor|].
  cbn [omap list_omap List.filter].
  destruct (normalizable f1 f2 root) eqn:Hguard.
  - unfold candidate at 2. rewrite Hguard.
    constructor; [|exact IH]. unfold candidate. now rewrite Hguard.
  - unfold candidate at 2. now rewrite Hguard.
Qed.

(** X3: in any arithmetic, doubles included, every model a call appends is
    a 3x3 matrix whose last entry is the constant 1. *)
Theorem appended_models_are_normalized cols sample_ sample_number_ (st : state T) :
  (7 <= sample_number_)%nat ->
  exists success appended st',
    estimateModel cols sample_ sample_number_ st = Some (success, st') /\
    models_ st' = models_ st ++ appended /\
    Forall (fun F =>
              length (descriptor F) = 3%nat /\
              Forall (fun row => length row = 3%nat) (descriptor F) /\
              coeff (descriptor F) 2 2 = s_one)
           appended.
Proof.
  intros Hn.
  exists (success_of (memory st) cols sample_ sample_number_).
  exists (appended_of (memory st) cols sample_ sample_number_).
  eexists. split; [apply estimateModel_run; assumption|].
  split; [reflexivity|].
  unfold appended_of. destruct (success_of _ _ _ _); [|constructor].
  apply List.Forall_forall. intros F HF.
  unfold candidates in HF. rewrite <- list_elem_of_In, list_elem_of_omap in HF.
  destruct HF as (root & _ & Hcand). exact (candidate_shape _ _ _ _ Hcand).
Qed.

(** X4: a successful call appends its models in the order of the roots the
    root finder returned: the k-th model appended is the one built from the
    k-th root that passes the guard. *)
Theorem appended_models_follow_roots cols sample_ sample_number_ (st : state T) :
  (7 <= sample_number_)%nat ->
  exists success appended,
    estimateModel cols sample_ sample_number_ st
    = Some (success, {| memory := memory st; models_ := models_ st ++ appended |}) /\
    (success = true ->
     Forall2 (fun root F =>
                candidate (basis_of (memory st) cols sample_ sample_number_).1
                          (basis_of (memory st) cols sample_ sample_number_).2
                          root = Some F)
             (List.filter
                (normalizable (basis_of (memory st) cols sample_ sample_number_).1
                              (basis_of (memory st) cols sample_ sample_number_).2)
                (real_roots_of (memory st) cols sample_ sample_number_))
             appended).
Proof.
  intros Hn.
  exists (success_of (memory st) cols sample_ sample_number_).
  exists (appended_of (memory st) cols sample_ sample_number_).
  split; [apply estimateModel_run; assumption|].
  unfold appended_of. intros ->. apply candidates_follow_roots.
Qed.

Lemma wrap_int_periodic z k : wrap_int (z + k * 4294967296) = wrap_int z.
Proof.
  unfold wrap_int.
  replace (z + k * 4294967296 + 2147483648)%Z
    with (z + 2147483648 + k * 4294967296)%Z by lia.
  now rewrite Z.mod_add by lia.
Qed.

(** X5: the sample index is narrowed to [int] before it is used, so only
    its low 32 bits select the row: two indices that differ by a multiple
    of 2^32 make the loop read the same four values. *)
Theorem sampled_correspondence_low_bits (mem : Z -> T) cols sample_ sample_' i k :
  sample_' i = (sample_ i + k * 4294967296)%Z ->
  sampled_correspondence mem cols sample_' i = sampled_correspondence mem cols sample_ i.
Proof.
  intros Hk. unfold sampled_correspondence. now rewrite Hk, wrap_int_periodic.
Qed.

(** X6: an index from 2^31 up to 2^32 - 1 becomes negative as an [int], and
    the loop reads the four values that lie that many rows before the start
    of the table. *)
Theorem sampled_correspondence_negative_row (mem : Z -> T) cols sample_ i :
  (2147483648 <= sample_ i < 4294967296)%Z ->
  in_int_range (cols * (sample_ i - 4294967296)) ->
  in_int_range (cols * (sample_ i - 4294967296) + 3) ->
  (sample_ i - 4294967296 < 0)%Z /\
  sampled_correspondence mem cols sample_ i
  = table_row mem cols (sample_ i - 4294967296).
Proof.
  intros Hidx Hlo Hhi. split; [lia|].
  rewrite <- (sampled_correspondence_table_row mem cols
                (fun _ => (sample_ i - 4294967296)%Z) i); try assumption.
  - unfold sampled_correspondence.
    rewrite <- (wrap_int_periodic (sample_ i - 4294967296) 1).
    now replace (sample_ i - 4294967296 + 1 * 4294967296)%Z with (sample_ i) by lia.
  - unfold in_int_range, INT_MIN, INT_MAX. lia.
Qed.
End CallFacts.

(** ** The guard on doubles *)

Section DoubleArithmetic.

Lemma compare_cont_antisym_Eq p q :
  PosDef.Pos.compare_cont Eq q p = CompOpp (PosDef.Pos.compare_cont Eq p q).
Proof. symmetry. exact (Pos.compare_cont_antisym p q Eq). Qed.

Lemma SFcompare_antisym a b :
  SpecFloat.SFcompare b a = option_map CompOpp (SpecFloat.SFcompare a b).
Proof.
  destruct a as [sa|sa| |sa ma ea], b as [sb|sb| |sb mb eb]; cbn;
    try reflexivity; try (destruct sa; reflexivity); try (destruct sb; reflexivity);
    try (destruct sa, sb; reflexivity).
  rewrite (Z.compare_antisym ea eb), (compare_cont_antisym_Eq ma mb).
  destruct sa, sb; cbn; try reflexivity;
    destruct (ea ?= eb)%Z; cbn; try reflexivity;
    now destruct (PosDef.Pos.compare_cont Eq ma mb).
Qed.

Lemma SFcompare_refl a : a <> SpecFloat.S754_nan -> SpecFloat.SFcompare a a = Some Eq.
Proof.
  destruct a as [sa|sa| |sa ma ea]; cbn; intros Hnan;
    try reflexivity; try (destruct sa; reflexivity); try contradiction.
  rewrite Z.compare_refl.
  replace (PosDef.Pos.compare_cont Eq ma ma) with Eq
    by (symmetry; exact (Pos.compare_cont_refl ma Eq)).
  now destruct sa.
Qed.

Lemma is_nan_spec x : PrimFloat.is_nan x = true <-> Prim2SF x = SpecFloat.S754_nan.
Proof.
  unfold PrimFloat.is_nan. rewrite FloatAxioms.eqb_spec. unfold SpecFloat.SFeqb. split.
  - intros Hx. destruct (Prim2SF x) eqn:Hsf; try reflexivity;
      rewrite SFcompare_refl in Hx by discriminate; discriminate.
  - intros ->. reflexivity.
Qed.

Lemma is_nan_abs x : PrimFloat.is_nan (PrimFloat.abs x) = PrimFloat.is_nan x.
Proof.
  apply eq_true_iff_eq. change (is_true ?b) with (b = true).
  rewrite !is_nan_spec, FloatAxioms.abs_spec.
  destruct (Prim2SF x); cbn; split; intros Hx; try reflexivity; discriminate.
Qed.

(** The three outcomes of the comparison [fabs(s) > epsilon]. *)
Lemma guard_cases (a e : float) :
  PrimFloat.is_nan e = false ->
  (PrimFloat.ltb e a = true /\ PrimFloat.leb a e = false /\ PrimFloat.is_nan a = false) \/
  (PrimFloat.ltb e a = false /\ PrimFloat.leb a e = true /\ PrimFloat.is_nan a = false) \/
  (PrimFloat.ltb e a = false /\ PrimFloat.leb a e = false /\ PrimFloat.is_nan a = true).
Proof.
  intros He.
  assert (Hne : Prim2SF e <> SpecFloat.S754_nan).
  { intros Hsf. apply is_nan_spec in Hsf. congruence. }
  destruct (PrimFloat.is_nan a) eqn:Ha.
  - right. right. apply is_nan_spec in Ha.
    rewrite FloatAxioms.ltb_spec, FloatAxioms.leb_spec, Ha. unfold SpecFloat.SFltb, SpecFloat.SFleb.
    destruct (Prim2SF e); cbn; auto.
  - assert (Hna : Prim2SF a <> SpecFloat.S754_nan).
    { intros Hsf. apply is_nan_spec in Hsf. congruence. }
    rewrite FloatAxioms.ltb_spec, FloatAxioms.leb_spec. unfold SpecFloat.SFltb, SpecFloat.SFleb.
    rewrite (SFcompare_antisym (Prim2SF e) (Prim2SF a)).
    destruct (SpecFloat.SFcompare (Prim2SF e) (Prim2SF a)) as [[| |]|] eqn:Hcmp; cbn; auto.
    exfalso. destruct (Prim2SF e), (Prim2SF a); cbn in Hcmp; try discriminate; congruence.
Qed.
(** C4, as amended: the loop body on doubles, for a root with
    [s = f1[8] * root + f2[8]]: when [fabs(s) <= epsilon], and also when [s]
    is not a number, nothing is appended; in every other case exactly one
    model is appended, whose first eight entries are
    [f1[i] * (root * (1 / s)) + f2[i] * (1 / s)] as rounded by the double
    operations in that order, and whose last entry is 1. *)
Theorem process_root_on_doubles (f1 f2 f : list float) (root : float) (st : state float) :
  length f = 8%nat ->
  exists f' st',
    process_root f1 f2 root f st = Some (f', st') /\
    memory st' = memory st /\
    (PrimFloat.leb (PrimFloat.abs (f1.[8] * root + f2.[8])%S) s_epsilon = true \/
     PrimFloat.is_nan (f1.[8] * root + f2.[8])%S = true ->
     models_ st' = models_ st) /\
    (PrimFloat.leb (PrimFloat.abs (f1.[8] * root + f2.[8])%S) s_epsilon = false ->
     PrimFloat.is_nan (f1.[8] * root + f2.[8])%S = false ->
     exists F,
       models_ st' = models_ st ++ [F] /\
       (forall i, (i < 8)%nat ->
          (row_major (descriptor F)).[i]
          = (f1.[i] * (root * (s_one / (f1.[8] * root + f2.[8])))
             + f2.[i] * (s_one / (f1.[8] * root + f2.[8])))%S) /\
       coeff (descriptor F) 2 2 = 1%float).
Proof.
  intros Hf.
  destruct (process_root_run f1 f2 root f st Hf) as (f' & _ & Hrun).
  exists f'. eexists. split; [exact Hrun|].
  cbn [memory models_]. split; [reflexivity|].
  unfold candidate, normalizable, normalization_scalar.
  cbn [s_gt s_fabs s_epsilon float_scalar].
  set (s := (f1.[8] * root + f2.[8])%S).
  assert (Heps : PrimFloat.is_nan 0x1p-52%float = false) by (vm_compute; reflexivity).
  pose proof (guard_cases (PrimFloat.abs s) 0x1p-52%float Heps) as Hcases.
  rewrite is_nan_abs in Hcases.
  destruct Hcases as [(Hlt & Hle & Hnan)|[(Hlt & Hle & Hnan)|(Hlt & Hle & Hnan)]];
    rewrite Hlt, Hle, Hnan.
  - split; [intros [?|?]; discriminate|].
    intros _ _. eexists. split; [reflexivity|].
    cbn [descriptor]. split; [|reflexivity].
    intros i Hi.
    do 8 (destruct i as [|i]; [reflexivity|]). lia.
  - split; [intros _; apply app_nil_r|discriminate].
  - split; [intros _; apply app_nil_r|]. intros _ ?. discriminate.
Qed.
End DoubleArithmetic.

(** ** Further properties in exact real arithmetic *)

Section PencilFacts.
Context {eigen : EigenLib R} {uninit : Uninitialized R}.
Local Open Scope R_scope.

Ltac nine_named l H :=
  destruct l as [|? [|? [|? [|? [|? [|? [|? [|? [|? [|? ?]]]]]]]]]];
  try discriminate H; clear H.

Lemma block_9_1_vget (V : Matrix R) j i : (i < 9)%nat -> (block_9_1 V j).[i] = coeff V i j.
Proof. intros Hi. do 9 (destruct i as [|i]; [reflexivity|]). lia. Qed.

(** X8: after the subtraction loop, [lambda * f1 + f2] is the combination
    [lambda * a + (1 - lambda) * b] of the two vectors [a] and [b] the loop
    started from, as the comment above the loop says. *)
Theorem pencil_is_affine_combination (a b : list R) (lambda : R) :
  length a = 9%nat -> length b = 9%nat ->
  pencil lambda (subtract_basis a b) b
  = map (fun i => lambda * a.[i] + (1 - lambda) * b.[i]) (seq 0 9).
Proof.
  intros La Lb. nine_named a La. nine_named b Lb.
  unfold pencil, subtract_basis.
  cbn [seq map fold_left nth vget insert list_insert s_add s_sub s_mul real_scalar].
  repeat (f_equal; try ring).
Qed.

Lemma candidate_combination (a b : list R) (root : R) F :
  length a = 9%nat -> length b = 9%nat ->
  candidate (subtract_basis a b) b root = Some F ->
  normalization_scalar (subtract_basis a b) b root <> 0 /\
  forall i, (i < 9)%nat ->
    (row_major (descriptor F)).[i]
    = root / normalization_scalar (subtract_basis a b) b root * a.[i]
      + (1 - root) / normalization_scalar (subtract_basis a b) b root * b.[i].
Proof.
  intros La Lb Hcand.
  assert (Hs : normalization_scalar (subtract_basis a b) b root <> 0).
  { unfold candidate in Hcand.
    destruct (normalizable _ _ root) eqn:Hguard; [|discriminate].
    exact (normalizable_nonzero _ _ _ Hguard). }
  split; [exact Hs|].
  revert Hcand Hs. nine_named a La. nine_named b Lb.
  unfold candidate. destruct (normalizable _ _ root); [|discriminate].
  intros [= <-].
  unfold normalization_scalar, subtract_basis, row_major.
  cbn [descriptor concat app seq map fold_left nth vget insert list_insert
       s_add s_sub s_mul s_div s_one real_scalar].
  intros Hs i Hi.
  do 9 (destruct i as [|i]; [cbn [nth]; field; exact Hs|]). lia.
Qed.

(** X9: every model a call appends is a combination of columns 7 and 8 of
    [V]: with [lambda] the root it comes from and [s] its normalisation
    scalar, its nine entries are [(lambda / s) V(i,7) + ((1 - lambda) / s) V(i,8)]. *)
Theorem appended_models_span_null_space cols sample_ sample_number_ (st : state R) :
  (7 <= sample_number_)%nat ->
  exists success appended,
    estimateModel cols sample_ sample_number_ st
    = Some (success, {| memory := memory st; models_ := models_ st ++ appended |}) /\
    forall F, In F appended ->
    exists lambda,
      In lambda (real_roots_of (memory st) cols sample_ sample_number_) /\
      normalization_scalar (basis_of (memory st) cols sample_ sample_number_).1
                           (basis_of (memory st) cols sample_ sample_number_).2
                           lambda <> 0 /\
      forall i, (i < 9)%nat ->
        (row_major (descriptor F)).[i]
        = lambda / normalization_scalar
                     (basis_of (memory st) cols sample_ sample_number_).1
                     (basis_of (memory st) cols sample_ sample_number_).2 lambda
          * coeff (svd_matrixV (normal_equations
                     (coefficients_of (memory st) cols sample_ sample_number_))) i 7
          + (1 - lambda) / normalization_scalar
                     (basis_of (memory st) cols sample_ sample_number_).1
                     (basis_of (memory st) cols sample_ sample_number_).2 lambda
            * coeff (svd_matrixV (normal_equations
                       (coefficients_of (memory st) cols sample_ sample_number_))) i 8.
Proof.
  intros Hn.
  exists (success_of (memory st) cols sample_ sample_number_).
  exists (appended_of (memory st) cols sample_ sample_number_).
  split; [apply estimateModel_run; assumption|].
  intros F HF. unfold appended_of in HF.
  destruct (success_of _ _ _ _); [|contradiction].
  apply candidates_In in HF. destruct HF as (root & Hin & Hcand).
  exists root. split; [exact Hin|].
  unfold basis_of, null_space_basis in *. cbn [fst snd] in *.
  set (V := svd_matrixV (normal_equations
                           (coefficients_of (memory st) cols sample_ sample_number_))) in *.
  apply candidate_combination in Hcand; [|reflexivity..].
  destruct Hcand as (Hs & Hentries). split; [exact Hs|].
  intros i Hi. rewrite (Hentries i Hi), !block_9_1_vget by assumption. reflexivity.
Qed.
(** X10: a matrix [alpha * a + beta * b] of the null space with
    [alpha + beta <> 0] sits at the parameter [alpha / (alpha + beta)], where
    the cubic takes the value of its determinant divided by
    [(alpha + beta)^3]: the parameter is a root of the cubic exactly when
    the matrix is singular. *)
Theorem cubic_at_known_matrix (a b : list R) (alpha beta : R) :
  length a = 9%nat -> length b = 9%nat ->
  alpha + beta <> 0 ->
  eval_cubic (cubic_coefficients (subtract_basis a b) b) (alpha / (alpha + beta))
  = det3 (reshape3x3 (map (fun i => alpha * a.[i] + beta * b.[i]) (seq 0 9)))
    / (alpha + beta) ^ 3.
Proof.
  intros La Lb Hsum. nine_named a La. nine_named b Lb.
  unfold eval_cubic, cubic_coefficients, det3, reshape3x3, coeff, subtract_basis.
  cbn [seq map fold_left nth vget insert list_insert s_add s_sub s_mul real_scalar].
  field. exact Hsum.
Qed.

Lemma candidate_at_known_matrix (a b : list R) (alpha beta : R) :
  length a = 9%nat -> length b = 9%nat ->
  alpha + beta <> 0 ->
  alpha * a.[8] + beta * b.[8] = 1 ->
  Rabs (/ (alpha + beta)) > s_epsilon ->
  candidate (subtract_basis a b) b (alpha / (alpha + beta))
  = Some {| descriptor :=
              reshape3x3 (map (fun i => alpha * a.[i] + beta * b.[i]) (seq 0 9)) |}.
Proof.
  intros La Lb Hsum Hlast Heps. revert Hlast. nine_named a La. nine_named b Lb.
  unfold candidate, normalizable, normalization_scalar, reshape3x3, subtract_basis.
  cbn [seq map fold_left nth vget insert list_insert
       s_gt s_fabs s_epsilon s_add s_sub s_mul s_div s_one real_scalar].
  intros Hlast.
  match goal with
  | |- context [Rgtb (Rabs ?s) _] =>
      assert (Hs : s = / (alpha + beta))
  end.
  { apply (Rmult_eq_reg_l (alpha + beta)); [|exact Hsum].
    rewrite Rinv_r by exact Hsum. rewrite <- Hlast. field. exact Hsum. }
  rewrite Hs.
  replace (Rgtb (Rabs (/ (alpha + beta))) (/ 4503599627370496)) with true
    by (symmetry; apply Rgtb_true; exact Heps).
  f_equal. f_equal.
  repeat (f_equal; try (field; exact Hsum)).
  symmetry. exact Hlast.
Qed.
(** X11: a matrix [alpha * V(.,7) + beta * V(.,8)] with last entry 1 and
    [alpha + beta <> 0] is among the models a call appends as soon as the
    root finder returns one to three roots with [alpha / (alpha + beta)]
    among them and [1 / (alpha + beta)] passes the guard. *)
Theorem known_matrix_is_appended cols sample_ sample_number_ (st : state R) alpha beta :
  (7 <= sample_number_)%nat ->
  (1 <= length (real_roots_of (memory st) cols sample_ sample_number_) <= 3)%nat ->
  alpha + beta <> 0 ->
  alpha * coeff (svd_matrixV (normal_equations
                   (coefficients_of (memory st) cols sample_ sample_number_))) 8 7
  + beta * coeff (svd_matrixV (normal_equations
                    (coefficients_of (memory st) cols sample_ sample_number_))) 8 8 = 1 ->
  Rabs (/ (alpha + beta)) > s_epsilon ->
  In (alpha / (alpha + beta)) (real_roots_of (memory st) cols sample_ sample_number_) ->
  exists appended,
    estimateModel cols sample_ sample_number_ st
    = Some (true, {| memory := memory st; models_ := models_ st ++ appended |}) /\
    In {| descriptor :=
            reshape3x3
              (map (fun i =>
                      alpha * coeff (svd_matrixV (normal_equations
                                (coefficients_of (memory st) cols sample_ sample_number_))) i 7
                      + beta * coeff (svd_matrixV (normal_equations
                                 (coefficients_of (memory st) cols sample_ sample_number_))) i 8)
                   (seq 0 9)) |}
       appended.
Proof.
  intros Hn Hcount Hsum Hlast Heps Hroot.
  exists (appended_of (memory st) cols sample_ sample_number_).
  rewrite estimateModel_run by assumption.
  assert (Hok : success_of (memory st) cols sample_ sample_number_ = true).
  { unfold success_of. apply root_count_ok_true; [unfold INT_MAX; lia|exact Hcount]. }
  rewrite Hok. split; [reflexivity|].
  unfold appended_of. rewrite Hok.
  unfold candidates. rewrite <- list_elem_of_In, list_elem_of_omap.
  exists (alpha / (alpha + beta)). split; [now rewrite list_elem_of_In|].
  unfold basis_of, null_space_basis. cbn [fst snd].
  set (V := svd_matrixV (normal_equations
                           (coefficients_of (memory st) cols sample_ sample_number_))) in *.
  rewrite (candidate_at_known_matrix (block_9_1 V 7) (block_9_1 V 8) alpha beta);
    [reflexivity|reflexivity|reflexivity|exact Hsum|exact Hlast|exact Heps].
Qed.

Lemma vget_scale (k : R) (f : list R) i : (map (Rmult k) f).[i] = k * f.[i].
Proof.
  unfold vget. revert i. induction f as [|x f IH]; intros [|i]; cbn; try ring. apply IH.
Qed.

(** X12: the two vectors matter only up to a common non-zero factor [k]
    (a decomposition fixes its vectors up to sign): the cubic coefficients
    are multiplied by [k^3], so the roots are the same, and a root that
    passes the guard for both gives the same model. *)
Theorem common_factor_is_normalized_away (f1 f2 : list R) (k root : R) :
  k <> 0 ->
  cubic_coefficients (map (Rmult k) f1) (map (Rmult k) f2)
  = map (Rmult (k ^ 3)) (cubic_coefficients f1 f2) /\
  (normalizable f1 f2 root = true ->
   normalizable (map (Rmult k) f1) (map (Rmult k) f2) root = true ->
   candidate (map (Rmult k) f1) (map (Rmult k) f2) root = candidate f1 f2 root).
Proof.
  intros Hk. split.
  - unfold cubic_coefficients. rewrite !vget_scale.
    cbn [map s_add s_sub s_mul real_scalar].
    repeat (f_equal; try ring).
  - intros Hg Hg'. unfold candidate. rewrite Hg, Hg'.
    apply normalizable_nonzero in Hg.
    unfold normalization_scalar. rewrite !vget_scale.
    cbn [s_add s_sub s_mul s_div s_one real_scalar].
    assert (Hks : k * f1.[8] * root + k * f2.[8] <> 0).
    { replace (k * f1.[8] * root + k * f2.[8]) with (k * (f1.[8] * root + f2.[8])) by ring.
      now apply Rmult_integral_contrapositive_currified. }
    f_equal. f_equal.
    repeat match goal with
           | |- @eq R _ _ => field; repeat split; assumption
           | |- _ :: _ = _ :: _ => f_equal
           end.
Qed.
Lemma dot_app (u1 u2 v1 v2 : list R) :
  length u1 = length v1 ->
  dot (u1 ++ u2) (v1 ++ v2) = dot u1 v1 + dot u2 v2.
Proof.
  unfold dot. revert v1.
  induction u1 as [|x u1 IH]; intros [|y v1] Hlen; try discriminate Hlen.
  - cbn. ring.
  - cbn [app zip_with fold_right s_add s_mul s_zero real_scalar] in *.
    rewrite IH by (cbn in Hlen; lia). ring.
Qed.

Lemma coeff_normal_equations (A : Matrix R) i j :
  ncols A = 9%nat -> (i < 9)%nat -> (j < 9)%nat ->
  coeff (normal_equations A) i j = dot (column A i) (column A j).
Proof.
  intros Hcols Hi Hj. unfold normal_equations, mat_mul, transpose. rewrite Hcols.
  do 9 (destruct i as [|i];
        [do 9 (destruct j as [|j]; [reflexivity|]); lia|]).
  lia.
Qed.

Lemma column_uninitialised_rows (rows : list nat) i :
  (i < 9)%nat ->
  column (map (fun k => map (heap_garbage k) (seq 0 9)) rows) i
  = map (fun k => heap_garbage k i) rows.
Proof.
  intros Hi. unfold column. rewrite List.map_map. apply List.map_ext. intros k.
  do 9 (destruct i as [|i]; [reflexivity|]). lia.
Qed.

(** X13: with more than seven rows allocated, the rows the loop never
    writes take part in the matrix that is decomposed: each entry of
    [coefficients' * coefficients] is the entry the seven sampled rows give
    plus the product of the two matching columns of uninitialised storage. *)
Theorem uninitialised_rows_enter_normal_equations cols sample_ sample_number_
    (st : state R) :
  (7 <= sample_number_)%nat ->
  exists coefficients,
    form_linear_system cols sample_ sample_number_ st = Some (coefficients, st) /\
    forall i j, (i < 9)%nat -> (j < 9)%nat ->
      coeff (normal_equations coefficients) i j
      = coeff (normal_equations
                 (map (fun k => coefficient_row
                                  (sampled_correspondence (memory st) cols sample_ k))
                      (seq 0 7))) i j
        + dot (map (fun k => heap_garbage k i) (seq 7 (sample_number_ - 7)))
              (map (fun k => heap_garbage k j) (seq 7 (sample_number_ - 7))).
Proof.
  intros Hn.
  eexists. split; [apply form_linear_system_run; assumption|].
  intros i j Hi Hj.
  rewrite coeff_normal_equations by (try apply coefficients_of_ncols; assumption).
  rewrite coeff_normal_equations;
    [|apply (coefficients_of_ncols (memory st) cols sample_ 7)|assumption..].
  unfold coefficients_of, column at 1 2. rewrite !map_app.
  rewrite dot_app by (now rewrite !length_map).
  fold (column (map (fun k => map (heap_garbage k) (seq 0 9))
                    (seq 7 (sample_number_ - 7))) i).
  fold (column (map (fun k => map (heap_garbage k) (seq 0 9))
                    (seq 7 (sample_number_ - 7))) j).
  now rewrite !column_uninitialised_rows by assumption.
Qed.
End PencilFacts.

(** ** The further properties at the sample *)

Section MoreWitnesses.
#[local] Existing Instance example_eigen.
#[local] Existing Instance other_garbage.

Lemma coefficient_matrix_unwritten_rows_witness :
  exists coefficients,
    form_linear_system (T := float) 4 example_sample 9 example_state
    = Some (coefficients, example_state) /\
    length coefficients = 9%nat /\
    Forall (fun row => length row = 9%nat) coefficients /\
    (forall i, (i < 7)%nat ->
       coefficients !! i
       = Some (coefficient_row
                 (sampled_correspondence (memory example_state) 4 example_sample i))) /\
    (forall i, (7 <= i < 9)%nat ->
       coefficients !! i = Some (map (heap_garbage i) (seq 0 9))).
Proof.
  apply (coefficient_matrix_unwritten_rows 4 example_sample 9 example_state). lia.
Defined.

Lemma appended_models_are_normalized_witness :
  exists success appended st',
    estimateModel (T := float) 4 example_sample 7 example_state = Some (success, st') /\
    models_ st' = models_ example_state ++ appended /\
    Forall (fun F =>
              length (descriptor F) = 3%nat /\
              Forall (fun row => length row = 3%nat) (descriptor F) /\
              coeff (descriptor F) 2 2 = s_one)
           appended.
Proof.
  apply (appended_models_are_normalized 4 example_sample 7 example_state). lia.
Defined.

Lemma appended_models_follow_roots_witness :
  exists success appended,
    estimateModel (T := float) 4 example_sample 7 example_state
    = Some (success, {| memory := memory example_state;
                        models_ := models_ example_state ++ appended |}) /\
    (success = true ->
     Forall2 (fun root F =>
                candidate (basis_of (T := float) (memory example_state) 4 example_sample 7).1
                          (basis_of (T := float) (memory example_state) 4 example_sample 7).2
                          root = Some F)
             (List.filter
                (normalizable
                   (basis_of (T := float) (memory example_state) 4 example_sample 7).1
                   (basis_of (T := float) (memory example_state) 4 example_sample 7).2)
                (real_roots_of (T := float) (memory example_state) 4 example_sample 7))
             appended).
Proof.
  apply (appended_models_follow_roots 4 example_sample 7 example_state). lia.
Defined.

Lemma sampled_correspondence_low_bits_witness :
  sampled_correspondence (T := float) example_memory 4
    (fun i => (example_sample i + 1 * 4294967296)%Z) 3
  = sampled_correspondence example_memory 4 example_sample 3.
Proof.
  apply (sampled_correspondence_low_bits (T := float) example_memory 4 example_sample
           (fun i => (example_sample i + 1 * 4294967296)%Z) 3 1).
  reflexivity.
Defined.

Lemma sampled_correspondence_negative_row_witness :
  (4294967295 - 4294967296 < 0)%Z /\
  sampled_correspondence (T := float) example_memory 4 (fun _ => 4294967295%Z) 0
  = table_row example_memory 4 (4294967295 - 4294967296).
Proof.
  apply (sampled_correspondence_negative_row (T := float) example_memory 4
           (fun _ => 4294967295%Z) 0);
    unfold in_int_range, INT_MIN, INT_MAX; lia.
Defined.

(** C4 as first stated fails on doubles: with a root 1 and an [f2] whose
    last entry is not a number, [s] is not a number either; [|s| <= epsilon]
    is false, and yet the guard [fabs(s) > epsilon] is false too, so no
    model is appended. *)
Lemma process_root_skips_nan :
  PrimFloat.leb
    (PrimFloat.abs (example_f1.[8] * 1%float
                    + [0; 0; 1; 0; 0; 0; -1; 0; nan]%float.[8])%S)
    s_epsilon = false /\
  ~ exists f' st' F,
      process_root (T := float) example_f1 [0; 0; 1; 0; 0; 0; -1; 0; nan]%float
                   1%float (repeat 0%float 8) example_state = Some (f', st') /\
      models_ st' = models_ example_state ++ [F].
Proof.
  split; [vm_compute; reflexivity|].
  intros (f' & st' & F & Hrun & Hmodels).
  vm_compute in Hrun. injection Hrun as _ <-. discriminate Hmodels.
Qed.

Lemma estimateModel_needs_seven_rows_witness :
  estimateModel (T := float) 4 example_sample 6 example_state = None.
Proof.
  apply (estimateModel_needs_seven_rows 4 example_sample 6 example_state). lia.
Defined.

Lemma process_root_on_doubles_witness :
  exists f' st',
    process_root (T := float) example_f1 example_f2 1%float (repeat 0%float 8) example_state
    = Some (f', st') /\
    memory st' = memory example_state /\
    (PrimFloat.leb (PrimFloat.abs (example_f1.[8] * 1%float + example_f2.[8])%S) s_epsilon
     = true \/
     PrimFloat.is_nan (example_f1.[8] * 1%float + example_f2.[8])%S = true ->
     models_ st' = models_ example_state) /\
    (PrimFloat.leb (PrimFloat.abs (example_f1.[8] * 1%float + example_f2.[8])%S) s_epsilon
     = false ->
     PrimFloat.is_nan (example_f1.[8] * 1%float + example_f2.[8])%S = false ->
     exists F,
       models_ st' = models_ example_state ++ [F] /\
       (forall i, (i < 8)%nat ->
          (row_major (descriptor F)).[i]
          = (example_f1.[i]
             * (1%float * (s_one / (example_f1.[8] * 1%float + example_f2.[8])))
             + example_f2.[i] * (s_one / (example_f1.[8] * 1%float + example_f2.[8])))%S) /\
       coeff (descriptor F) 2 2 = 1%float).
Proof.
  apply (process_root_on_doubles example_f1 example_f2 (repeat 0%float 8) 1%float
           example_state).
  reflexivity.
Defined.
Lemma pencil_is_affine_combination_witness :
  pencil (T := R) 2%R (subtract_basis example_f1 example_f2) example_f2
  = map (fun i => (2 * example_f1.[i] + (1 - 2) * example_f2.[i])%R) (seq 0 9).
Proof.
  apply (pencil_is_affine_combination example_f1 example_f2 2%R); reflexivity.
Defined.

Lemma appended_models_span_null_space_witness :
  exists success appended,
    estimateModel (T := R) 4 example_sample 7 example_state
    = Some (success, {| memory := memory example_state;
                        models_ := models_ example_state ++ appended |}) /\
    forall F, In F appended ->
    exists lambda,
      In lambda (real_roots_of (T := R) (memory example_state) 4 example_sample 7) /\
      normalization_scalar
        (basis_of (T := R) (memory example_state) 4 example_sample 7).1
        (basis_of (T := R) (memory example_state) 4 example_sample 7).2 lambda <> 0%R /\
      forall i, (i < 9)%nat ->
        (row_major (descriptor F)).[i]
        = (lambda / normalization_scalar
                      (basis_of (T := R) (memory example_state) 4 example_sample 7).1
                      (basis_of (T := R) (memory example_state) 4 example_sample 7).2 lambda
           * coeff (svd_matrixV (normal_equations
                      (coefficients_of (T := R) (memory example_state) 4 example_sample 7)))
                   i 7
           + (1 - lambda) / normalization_scalar
                      (basis_of (T := R) (memory example_state) 4 example_sample 7).1
                      (basis_of (T := R) (memory example_state) 4 example_sample 7).2 lambda
             * coeff (svd_matrixV (normal_equations
                        (coefficients_of (T := R) (memory example_state) 4 example_sample 7)))
                     i 8)%R.
Proof.
  apply (appended_models_span_null_space 4 example_sample 7 example_state). lia.
Defined.

Lemma cubic_at_known_matrix_witness :
  eval_cubic (T := R) (cubic_coefficients (subtract_basis example_f1 example_f2) example_f2)
             (-1 / (-1 + 0))%R
  = (det3 (reshape3x3
             (map (fun i => -1 * example_f1.[i] + 0 * example_f2.[i]) (seq 0 9)))
     / (-1 + 0) ^ 3)%R.
Proof.
  apply (cubic_at_known_matrix example_f1 example_f2 (-1)%R 0%R);
    [reflexivity|reflexivity|lra].
Defined.

Lemma known_matrix_is_appended_witness :
  exists appended,
    estimateModel (T := R) 4 example_sample 7 example_state
    = Some (true, {| memory := memory example_state;
                     models_ := models_ example_state ++ appended |}) /\
    In {| descriptor :=
            reshape3x3
              (map (fun i =>
                      (-1 * coeff (svd_matrixV (normal_equations
                               (coefficients_of (T := R) (memory example_state) 4
                                                example_sample 7))) i 7
                       + 0 * coeff (svd_matrixV (normal_equations
                                (coefficients_of (T := R) (memory example_state) 4
                                                 example_sample 7))) i 8)%R)
                   (seq 0 9)) |}
       appended.
Proof.
  apply (known_matrix_is_appended 4 example_sample 7 example_state (-1)%R 0%R).
  - lia.
  - change (1 <= 2 <= 3)%nat. lia.
  - lra.
  - cbv -[Rplus Rmult Rminus Rdiv Rinv Ropp IZR]. lra.
  - replace (/ (-1 + 0))%R with (- (1))%R by (field; lra).
    rewrite Rabs_Ropp, Rabs_R1. cbn. lra.
  - change (In (-1 / (-1 + 0))%R [0%R; 1%R]). right. left. field.
Defined.

Lemma common_factor_is_normalized_away_witness :
  cubic_coefficients (T := R) (map (Rmult (-1)) example_f1) (map (Rmult (-1)) example_f2)
  = map (Rmult ((-1) ^ 3)) (cubic_coefficients example_f1 example_f2) /\
  (normalizable example_f1 example_f2 1%R = true ->
   normalizable (map (Rmult (-1)) example_f1) (map (Rmult (-1)) example_f2) 1%R = true ->
   candidate (map (Rmult (-1)) example_f1) (map (Rmult (-1)) example_f2) 1%R
   = candidate example_f1 example_f2 1%R).
Proof.
  apply (common_factor_is_normalized_away example_f1 example_f2 (-1)%R 1%R). lra.
Defined.

Lemma uninitialised_rows_enter_normal_equations_witness :
  exists coefficients,
    form_linear_system (T := R) 4 example_sample 9 example_state
    = Some (coefficients, example_state) /\
    forall i j, (i < 9)%nat -> (j < 9)%nat ->
      coeff (normal_equations coefficients) i j
      = (coeff (normal_equations
                  (map (fun k => coefficient_row
                                   (sampled_correspondence (memory example_state) 4
                                                           example_sample k))
                       (seq 0 7))) i j
         + dot (map (fun k => heap_garbage k i) (seq 7 (9 - 7)))
               (map (fun k => heap_garbage k j) (seq 7 (9 - 7))))%R.
Proof.
  apply (uninitialised_rows_enter_normal_equations 4 example_sample 9 example_state). lia.
Defined.
End MoreWitnesses.
